(** * Scribe: the AI journal functions and the memory curation pipeline

    A shallow embedding of the Cloud Functions of the scribe repository:
    the callable [getEnhancedReceipt] and the Firestore trigger
    [updateMemoryOnNewReceipt], in the three revisions the sources hold:

    - [RevA]: src/functions/index.js (recent entries only, no memory);
    - [RevB]: src/unnamed/part_000, lines 1-154;
    - [RevC]: src/unnamed/part_000, lines 156-319.

    The document store and the generative backend are collaborators of the
    code: the store is modelled as finite maps of documents, the backend as
    a fallible function from prompts to text, and every call that the code
    awaits may reject.  Effects are threaded through a small error monad
    that keeps a trace of what the function did and, inside
    [runTransaction], the writes buffered on the transaction. *)

From Stdlib Require Import ZArith String Ascii List Lia Sorted.
From stdpp Require Import base gmap strings list sorting.

Open Scope string_scope.
Open Scope list_scope.
Open Scope Z_scope.

(** ** JavaScript helpers *)

Module Js.

(** The characters the template literals need. *)
Definition nl : string := String "010"%char EmptyString.
Definition dquote : string := String "034"%char EmptyString.

(** [!s] on a string: only the empty string is falsy. *)
Definition truthy (s : string) : bool :=
  match s with EmptyString => false | String _ _ => true end.

(** [a || b] on strings. *)
Definition or_else (a b : string) : string := if truthy a then a else b.

(** [xs.join(sep)]. *)
Definition join (sep : string) (xs : list string) : string :=
  String.concat sep xs.

(** [s] occurs in [t]. *)
Definition embeds (s t : string) : Prop :=
  exists pre post, t = pre +:+ s +:+ post.

(** A decision procedure for [embeds], used on closed prompts. *)
Fixpoint occurs (s t : string) : bool :=
  String.prefix s t ||
  match t with
  | EmptyString => false
  | String _ t' => occurs s t'
  end.

End Js.

(** ** Data model: the documents of the store *)

(** [users/{uid}]: the creation counter, a number or missing, next to
    whatever else the application keeps in the user record.  Counters stay
    in the range where JavaScript's numbers are exact integers. *)
Record UserDoc := mkUserDoc {
  receiptCount : option Z;
  profile : gmap string string
}.

(** [users/{uid}/memory/summary]. *)
Record MemoryDoc := mkMemoryDoc {
  summary : string;
  lastUpdated : Z
}.

(** The data of [users/{uid}/receipts/{receiptId}]. *)
Record Receipt := mkReceipt {
  message : string;
  timestamp : Z
}.

Record Firestore := mkFirestore {
  users : gmap string UserDoc;
  memory : gmap string MemoryDoc;
  receipts : gmap string (gmap string Receipt)
}.

Definition emptyStore : Firestore := mkFirestore ∅ ∅ ∅.

(** The entries of a user, by document id. *)
Definition collection (fs : Firestore) (uid : string) : gmap string Receipt :=
  default ∅ (receipts fs !! uid).

(** A client creates an entry: one more document in the user's collection. *)
Definition addReceipt (uid rid : string) (r : Receipt) (fs : Firestore) : Firestore :=
  mkFirestore (users fs) (memory fs)
    (<[uid := <[rid := r]> (collection fs uid)]> (receipts fs)).

(** ** Queries: [orderBy("timestamp", "desc").limit(n)] *)

(** Descending by [timestamp]; documents with equal timestamps come in
    descending order of their ids, as the store breaks ties. *)
Definition newerFirst (a b : string * Receipt) : Prop :=
  timestamp (snd b) < timestamp (snd a) \/
  (timestamp (snd a) = timestamp (snd b) /\ String.le (fst b) (fst a)).

#[global] Instance newerFirst_dec : RelDecision newerFirst.
Proof. intros a b. unfold newerFirst. apply _. Defined.

Definition queryRecent (fs : Firestore) (uid : string) (n : nat)
  : list (string * Receipt) :=
  take n (merge_sort newerFirst (map_to_list (collection fs uid))).

(** ** Failures, effects and what a run leaves behind *)

Inductive HttpsCode := unauthenticated | invalid_argument | internal.

(** What a JavaScript [throw] or a rejected promise carries. *)
Inductive Exn :=
| HttpsError (code : HttpsCode) (msg : string)
| TypeError (msg : string)
| StoreError (detail : string)
| ProviderError (detail : string).

Inductive DocRef :=
| UserRef (uid : string)      (* db.doc(`users/${uid}`) *)
| MemoryRef (uid : string).   (* db.doc(`users/${uid}/memory/summary`) *)

(** The writes the trigger puts on a transaction. *)
Inductive Write :=
| Update (uid : string) (count : Z)
    (* transaction.update(userRef, {receiptCount: count}) *)
| SetMerge (uid : string) (count : Z)
    (* transaction.set(userRef, {receiptCount: count}, {merge: true}) *)
| SetSummary (uid : string) (text : string).
    (* transaction.set(memoryRef, {summary: text, lastUpdated: serverTimestamp()}) *)

Inductive Event :=
| TxBegin
| TxGet (r : DocRef)                    (* transaction.get(ref) *)
| TxWrite (w : Write)                   (* transaction.update / transaction.set *)
| TxCommit
| TxRollback
| DbGet (r : DocRef)                    (* ref.get(), on the database handle *)
| DbQuery (uid : string) (limit : nat)  (* query.get(), on the database handle *)
| Generate (prompt : string)            (* the call to the generative backend *)
| LogInfo (uid : string) (count : Z)    (* console.log(`Updating memory ...`) *)
| LogError (msg : string) (err : Exn).  (* console.error / functions.logger.error *)

(** The calls to the store that may reject. *)
Inductive StoreOp :=
| OpGet (r : DocRef)
| OpQuery (uid : string)
| OpCommit.

(** The collaborators of one invocation: which store calls reject (and
    with what detail), what the backend answers to a prompt ([inl] is a
    failure with the provider's detail, also a response the code cannot
    take the text from), and the server's clock at commit. *)
Record Env := mkEnv {
  fault : StoreOp -> option string;
  generate : string -> string + string;
  serverTime : Z
}.

(** An environment in which nothing fails. *)
Definition healthy (g : string -> string) (now : Z) : Env :=
  mkEnv (fun _ => None) (fun p => inr (g p)) now.

Record Run := mkRun {
  trace : list Event;
  buffered : list Write
}.

Definition Eff (A : Type) : Type := Run -> (Exn + A) * Run.

Definition ret {A} (a : A) : Eff A := fun r => (inr a, r).

Definition bind {A B} (m : Eff A) (k : A -> Eff B) : Eff B :=
  fun r => match m r with
           | (inl e, r') => (inl e, r')
           | (inr a, r') => k a r'
           end.

Definition throw {A} (e : Exn) : Eff A := fun r => (inl e, r).

(** [try { body } catch (error) { handler }]. *)
Definition tryCatch {A} (body : Eff A) (handler : Exn -> Eff A) : Eff A :=
  fun r => match body r with
           | (inl e, r') => handler e r'
           | ok => ok
           end.

Definition emit (e : Event) : Eff unit :=
  fun r => (inr tt, mkRun (trace r ++ [e]) (buffered r)).

Declare Scope eff_scope.
Delimit Scope eff_scope with eff.
Notation "x <- m ;; k" := (bind m (fun x => k))
  (at level 100, m at next level, right associativity) : eff_scope.
Notation "m ;; k" := (bind m (fun _ => k))
  (at level 100, right associativity) : eff_scope.
Open Scope eff_scope.

Section Primitives.
Variable env : Env.
Variable fs : Firestore.

(** An awaited store call: rejects when the environment says so. *)
Definition storeCall {A} (op : StoreOp) (a : A) : Eff A :=
  match fault env op with
  | Some detail => throw (StoreError detail)
  | None => ret a
  end.

(** [await transaction.get(userRef)]. *)
Definition txGetUser (uid : string) : Eff (option UserDoc) :=
  emit (TxGet (UserRef uid)) ;;
  storeCall (OpGet (UserRef uid)) (users fs !! uid).

(** [await memoryRef.get()]. *)
Definition getMemory (uid : string) : Eff (option MemoryDoc) :=
  emit (DbGet (MemoryRef uid)) ;;
  storeCall (OpGet (MemoryRef uid)) (memory fs !! uid).

(** [await db.collection(`users/${uid}/receipts`)
      .orderBy("timestamp", "desc").limit(n).get()]. *)
Definition getRecent (uid : string) (n : nat) : Eff (list (string * Receipt)) :=
  emit (DbQuery uid n) ;;
  storeCall (OpQuery uid) (queryRecent fs uid n).

(** The awaited call to the backend and the extraction of its text. *)
Definition generateContent (prompt : string) : Eff string :=
  emit (Generate prompt) ;;
  match generate env prompt with
  | inl detail => throw (ProviderError detail)
  | inr t => ret t
  end.

(** A write put on the transaction: buffered until commit. *)
Definition txWrite (w : Write) : Eff unit :=
  fun r => (inr tt, mkRun (trace r ++ [TxWrite w]) (buffered r ++ [w])).

End Primitives.

(** ** Transactions *)

(** The user record with its counter set, next to the given other fields. *)
Definition setCount (uid : string) (count : Z) (fields : gmap string string)
    (fs : Firestore) : Firestore :=
  mkFirestore (<[uid := mkUserDoc (Some count) fields]> (users fs))
              (memory fs) (receipts fs).

(** The summary document replaced; [serverTimestamp()] becomes the server's
    time at commit. *)
Definition setSummary (uid text : string) (now : Z) (fs : Firestore) : Firestore :=
  mkFirestore (users fs) (<[uid := mkMemoryDoc text now]> (memory fs))
              (receipts fs).

(** The fields a merge keeps. *)
Definition otherFields (fs : Firestore) (uid : string) : gmap string string :=
  match users fs !! uid with
  | Some d => profile d
  | None => ∅
  end.

(** One buffered write applied at commit.  [update] needs the document,
    [set] with [merge] keeps the other fields or creates the document,
    plain [set] replaces the document. *)
Definition applyWrite (now : Z) (fs : Firestore) (w : Write) : option Firestore :=
  match w with
  | Update uid n =>
      match users fs !! uid with
      | Some d => Some (setCount uid n (profile d) fs)
      | None => None
      end
  | SetMerge uid n => Some (setCount uid n (otherFields fs uid) fs)
  | SetSummary uid s => Some (setSummary uid s now fs)
  end.

Fixpoint applyWrites (now : Z) (fs : Firestore) (ws : list Write) : option Firestore :=
  match ws with
  | [] => Some fs
  | w :: ws' =>
      match applyWrite now fs w with
      | Some fs' => applyWrites now fs' ws'
      | None => None
      end
  end.

(** What an invocation leaves: its result, the store and the trace. *)
Record Outcome (A : Type) := mkOutcome {
  result : Exn + A;
  store : Firestore;
  events : list Event
}.
Arguments mkOutcome {A}.
Arguments result {A}.
Arguments store {A}.
Arguments events {A}.

(** [db.runTransaction(body)], one attempt: the writes of a body that
    throws are dropped; otherwise they are committed together, or not at
    all.  The store re-runs a body only when a commit loses against a
    concurrent one, which a sequential run never does. *)
Definition runTransaction {A} (env : Env) (fs : Firestore) (body : Eff A) : Outcome A :=
  match body (mkRun [TxBegin] []) with
  | (inl e, r) => mkOutcome (inl e) fs (trace r ++ [TxRollback])
  | (inr v, r) =>
      match fault env OpCommit with
      | Some detail => mkOutcome (inl (StoreError detail)) fs (trace r ++ [TxRollback])
      | None =>
          match applyWrites (serverTime env) fs (buffered r) with
          | Some fs' => mkOutcome (inr v) fs' (trace r ++ [TxCommit])
          | None => mkOutcome (inl (StoreError "NOT_FOUND")) fs (trace r ++ [TxRollback])
          end
      end
  end.

(** A callable writes nothing: its result and its trace. *)
Definition runCallable {A} (body : Eff A) : (Exn + A) * list Event :=
  let '(res, r) := body (mkRun [] []) in (res, trace r).

(** ** The callable's inputs *)

(** [data]: the [text] field is a string or is missing. *)
Record CallData := mkCallData { text : option string }.

(** [context]: [auth] is missing for an anonymous call, and otherwise
    carries [token.uid]. *)
Record CallableContext := mkContext { auth : option string }.

(** [!rawText]. *)
Definition missing (rawText : option string) : bool :=
  match rawText with
  | None => true
  | Some s => negb (Js.truthy s)
  end.

(** The text a template literal renders for [rawText] once [!rawText] is
    false. *)
Definition rendered (rawText : option string) : string :=
  default "undefined" rawText.

(** [`- ${r.message}`]. *)
Definition entryLine (r : Receipt) : string := "- " +:+ message r.

(** What [transaction] callbacks return: [null] on the early exit, the
    transaction itself from [transaction.set]. *)
Inductive TxReturn := RetNull | RetTransaction.

(** ** Document snapshots *)

Module Snapshot.

(** [snap.exists], a boolean property of the snapshot. *)
Definition exists_ {A} (snap : option A) : bool :=
  match snap with Some _ => true | None => false end.

(** [snap.exists()].  The functions run on the Admin SDK
    ([admin.firestore()]), whose snapshots have [exists] as a boolean
    property; revision C reads it as one.  Applying it as a function
    throws a TypeError. *)
Definition callExists {A} (snap : option A) : Eff bool :=
  throw (TypeError "memoryDoc.exists is not a function").

(** [snap.data().field]: [data()] is [undefined] for a missing document,
    and reading a field of [undefined] throws. *)
Definition dataField {A B} (snap : option A) (field : A -> B) : Eff B :=
  match snap with
  | Some d => ret (field d)
  | None => throw (TypeError "Cannot read properties of undefined")
  end.

(** [count || 0] on a counter field that is a number or is missing. *)
Definition orZero (count : option Z) : Z :=
  match count with
  | Some n => if n =? 0 then 0 else n
  | None => 0
  end.

End Snapshot.

(** ** Revision A: src/functions/index.js *)

Module RevA.

(** [recentReceipts.reverse().map((r) => `- ${r.message}`)]. *)
Definition contextLines (snapshot : list (string * Receipt)) : list string :=
  let recentReceipts := map snd snapshot in
  map entryLine (rev recentReceipts).

Definition contextText (snapshot : list (string * Receipt)) : string :=
  Js.join Js.nl (contextLines snapshot).

Definition prompt (contextText : string) (rawText : option string) : string :=
  Js.join Js.nl
    [ "You are a supportive and insightful biographer.";
      "Your task is to take a raw note from a user and expand it into a";
      "beautifully written, reflective journal entry of 2-3 sentences.";
      "Frame it as a significant moment in their life story.";
      EmptyString;
      "Use the following recent entries as context to understand recurring";
      "themes or ongoing stories. This context should inform the tone and";
      "perspective of your writing, but do not explicitly reference these";
      "past entries.";
      "CONTEXT of the last few entries:";
      Js.or_else contextText "No recent entries.";
      EmptyString;
      "Now, based on that context, please rephrase the following NEW NOTE:";
      "NEW NOTE: " +:+ Js.dquote +:+ rendered rawText +:+ Js.dquote ].

Definition getEnhancedReceipt (env : Env) (fs : Firestore)
    (data : CallData) (context : CallableContext) : Eff string :=
  match auth context with
  | None =>
      throw (HttpsError unauthenticated
               "You must be logged in to use the AI Scribe.")
  | Some uid =>
      let rawText := text data in
      if missing rawText then
        throw (HttpsError invalid_argument
                 ("The function must be called with one argument 'text' " +:+
                  "containing the message to rewrite."))
      else
        tryCatch
          (snapshot <- getRecent env fs uid 3 ;;
           enhancedText <- generateContent env
                             (prompt (contextText snapshot) rawText) ;;
           ret enhancedText)
          (fun error =>
             emit (LogError "Error calling Gemini API:" error) ;;
             throw (HttpsError internal
                      "Failed to get a response from the AI Scribe."))
  end.

End RevA.

(** ** Revision B: src/unnamed/part_000, lines 1-154 *)

Module RevB.

(** [recentReceipts.reverse().map((r) => `- ${r.message}`)]. *)
Definition contextLines (snapshot : list (string * Receipt)) : list string :=
  let recentReceipts := map snd snapshot in
  map entryLine (rev recentReceipts).

Definition contextHistory (snapshot : list (string * Receipt)) : string :=
  Js.join Js.nl (contextLines snapshot).

Definition prompt (memorySummary contextHistory : string)
    (rawText : option string) : string :=
  Js.join Js.nl
    [ "You are a supportive biographer. Expand the following raw";
      "note into a reflective journal entry. The final output must be a single";
      "paragraph under 200 characters.";
      EmptyString;
      "Use the following long-term memory and recent entries for deep context.";
      EmptyString;
      "LONG-TERM MEMORY:";
      memorySummary;
      EmptyString;
      "RECENT ENTRIES:";
      Js.or_else contextHistory "No recent entries.";
      EmptyString;
      "NEW NOTE: " +:+ Js.dquote +:+ rendered rawText +:+ Js.dquote ].

Definition getEnhancedReceipt (env : Env) (fs : Firestore)
    (data : CallData) (context : CallableContext) : Eff string :=
  match auth context with
  | None =>
      throw (HttpsError unauthenticated
               "You must be logged in to use the AI Scribe.")
  | Some uid =>
      let rawText := text data in
      if missing rawText then
        throw (HttpsError invalid_argument
                 "The function must be called with 'text' containing the message.")
      else
        tryCatch
          (memoryDoc <- getMemory env fs uid ;;
           present <- Snapshot.callExists memoryDoc ;;
           memorySummary <-
             (if present : bool then Snapshot.dataField memoryDoc summary
              else ret "No long-term memory yet.") ;;
           snapshot <- getRecent env fs uid 3 ;;
           enhancedText <- generateContent env
                             (prompt memorySummary (contextHistory snapshot) rawText) ;;
           ret enhancedText)
          (fun error =>
             emit (LogError "Error calling Gemini API:" error) ;;
             throw (HttpsError internal
                      "Failed to get a response from the AI Scribe."))
  end.

(** [receiptsSnap.docs.map((d) => `- ${d.data().message}`).reverse()]. *)
Definition historyLines (docs : list (string * Receipt)) : list string :=
  rev (map (fun d => entryLine (snd d)) docs).

Definition recentHistory (docs : list (string * Receipt)) : string :=
  Js.join Js.nl (historyLines docs).

Definition curatorPrompt (currentMemory recentHistory : string) : string :=
  Js.join Js.nl
    [ "You are a memory curator. Here is the user's";
      "current memory summary and their newest journal entries.";
      "Integrate the new information into the existing summary, keeping it concise";
      "(under 500 characters) and focused on key facts, themes, and goals.";
      "Output only the updated summary, not conversational text.";
      EmptyString;
      "CURRENT SUMMARY:";
      Js.or_else currentMemory "No summary yet.";
      EmptyString;
      "NEW ENTRIES:";
      recentHistory ].

(** The callback given to [db.runTransaction]. *)
Definition transactionBody (env : Env) (fs : Firestore) (userId : string)
    : Eff TxReturn :=
  userDoc <- txGetUser env fs userId ;;
  count <- Snapshot.dataField userDoc receiptCount ;;
  let newCount := Snapshot.orZero count + 1 in
  txWrite (Update userId newCount) ;;
  if negb (Z.rem newCount 5 =? 0) then ret RetNull
  else
    emit (LogInfo userId newCount) ;;
    receiptsSnap <- getRecent env fs userId 15 ;;
    memoryDoc <- getMemory env fs userId ;;
    present <- Snapshot.callExists memoryDoc ;;
    currentMemory <-
      (if present : bool then Snapshot.dataField memoryDoc summary
       else ret EmptyString) ;;
    newSummary <- generateContent env
                    (curatorPrompt currentMemory (recentHistory receiptsSnap)) ;;
    txWrite (SetSummary userId newSummary) ;;
    ret RetTransaction.

Definition updateMemoryOnNewReceipt (env : Env) (fs : Firestore)
    (userId : string) : Outcome TxReturn :=
  runTransaction env fs (transactionBody env fs userId).

End RevB.

(** ** Revision C: src/unnamed/part_000, lines 156-319 *)

Module RevC.

(** [recentReceipts.reverse().map((r) => `- ${r.message}`)]. *)
Definition contextLines (snapshot : list (string * Receipt)) : list string :=
  let recentReceipts := map snd snapshot in
  map entryLine (rev recentReceipts).

Definition contextHistory (snapshot : list (string * Receipt)) : string :=
  Js.join Js.nl (contextLines snapshot).

Definition prompt (memorySummary contextHistory : string)
    (rawText : option string) : string :=
  Js.join Js.nl
    [ "You are a personal scribe with a witty, slightly playful,";
      "and very human tone. Your goal is to rephrase the user's raw note into a";
      "beautifully written, insightful journal entry. The final output must be a";
      "single paragraph under 200 characters. Use the following long-term memory";
      "and recent entries for deep context, but don't feel obligated to reference";
      "them directly. Focus on making the new entry shine.";
      EmptyString;
      "LONG-TERM MEMORY:";
      memorySummary;
      EmptyString;
      "RECENT ENTRIES:";
      Js.or_else contextHistory "No recent entries.";
      EmptyString;
      "NEW NOTE: " +:+ Js.dquote +:+ rendered rawText +:+ Js.dquote ].

Definition getEnhancedReceipt (env : Env) (fs : Firestore)
    (data : CallData) (context : CallableContext) : Eff string :=
  match auth context with
  | None => throw (HttpsError unauthenticated "Auth required.")
  | Some uid =>
      let rawText := text data in
      if missing rawText then
        throw (HttpsError invalid_argument "Text required.")
      else
        tryCatch
          (memoryDoc <- getMemory env fs uid ;;
           memorySummary <-
             (if Snapshot.exists_ memoryDoc
              then Snapshot.dataField memoryDoc summary
              else ret "No long-term memory yet.") ;;
           snapshot <- getRecent env fs uid 3 ;;
           response <- generateContent env
                         (prompt memorySummary (contextHistory snapshot) rawText) ;;
           ret response)
          (fun error =>
             emit (LogError "CRITICAL: Gemini API Error in Scribe:" error) ;;
             throw (HttpsError internal "AI Scribe failed."))
  end.

(** [receiptsSnap.docs.map((d) => `- ${d.data().message}`).reverse()]. *)
Definition historyLines (docs : list (string * Receipt)) : list string :=
  rev (map (fun d => entryLine (snd d)) docs).

Definition recentHistory (docs : list (string * Receipt)) : string :=
  Js.join Js.nl (historyLines docs).

Definition curatorPrompt (currentMemory recentHistory : string) : string :=
  Js.join Js.nl
    [ "You are an intelligent memory archivist. Your task is to";
      "update the user's long-term memory summary. Here is the current summary and a";
      "list of their recent journal entries. Synthesize the new entries into the";
      "existing summary, creating a new, cohesive narrative. Intelligently integrate";
      "new facts, remove outdated or trivial details, and identify evolving themes.";
      "The final summary should be a concise, high-level overview of the user's";
      "current life, under 2000 characters. Output only the updated summary.";
      EmptyString;
      "CURRENT SUMMARY:";
      Js.or_else currentMemory "No summary yet.";
      EmptyString;
      "NEW ENTRIES:";
      recentHistory ].

(** The callback given to [db.runTransaction]. *)
Definition transactionBody (env : Env) (fs : Firestore) (userId : string)
    : Eff TxReturn :=
  userDoc <- txGetUser env fs userId ;;
  currentCount <-
    (if Snapshot.exists_ userDoc
     then count <- Snapshot.dataField userDoc receiptCount ;;
          ret (Snapshot.orZero count)
     else ret 0) ;;
  let newCount := currentCount + 1 in
  txWrite (SetMerge userId newCount) ;;
  if negb (Z.rem newCount 5 =? 0) then ret RetNull
  else
    receiptsSnap <- getRecent env fs userId 15 ;;
    memoryDoc <- getMemory env fs userId ;;
    currentMemory <-
      (if Snapshot.exists_ memoryDoc
       then Snapshot.dataField memoryDoc summary
       else ret EmptyString) ;;
    response <- generateContent env
                  (curatorPrompt currentMemory (recentHistory receiptsSnap)) ;;
    txWrite (SetSummary userId response) ;;
    ret RetTransaction.

Definition updateMemoryOnNewReceipt (env : Env) (fs : Firestore)
    (userId : string) : Outcome TxReturn :=
  runTransaction env fs (transactionBody env fs userId).

End RevC.

(** ** Sequential entry creations *)

(** One creation event: the entry a client adds and the collaborators the
    trigger then runs against. *)
Record Creation := mkCreation {
  receiptId : string;
  entry : Receipt;
  creationEnv : Env
}.

Definition Trigger : Type := Env -> Firestore -> string -> Outcome TxReturn.

(** The document is created, then the trigger fires for it. *)
Definition onCreate (trigger : Trigger) (userId : string) (c : Creation)
    (fs : Firestore) : Outcome TxReturn :=
  trigger (creationEnv c) (addReceipt userId (receiptId c) (entry c) fs) userId.

(** Creations processed one after the other: the final store and the
    trace of all the invocations. *)
Fixpoint createAll (trigger : Trigger) (userId : string) (cs : list Creation)
    (fs : Firestore) : Firestore * list Event :=
  match cs with
  | [] => (fs, [])
  | c :: cs' =>
      let o := onCreate trigger userId c fs in
      let '(fs', tr) := createAll trigger userId cs' (store o) in
      (fs', events o ++ tr)
  end.

(** A creation during which nothing fails. *)
Definition healthyCreation (x : string * Receipt * (string -> string) * Z) : Creation :=
  let '(rid, r, g, now) := x in mkCreation rid r (healthy g now).

(** The refresh path starts with the query for the last 15 entries. *)
Definition startsRefresh (e : Event) : bool :=
  match e with
  | DbQuery _ 15 => true
  | _ => false
  end.

(** How many times the refresh path was entered. *)
Definition refreshRuns (tr : list Event) : nat :=
  length (filter (fun e => startsRefresh e = true) tr).

(** The counter as the trigger reads it: absent counts as 0. *)
Definition currentCount (fs : Firestore) (uid : string) : Z :=
  match users fs !! uid with
  | Some d => Snapshot.orZero (receiptCount d)
  | None => 0
  end.

(** The summary as the enhancement reads it. *)
Definition memoryText (fs : Firestore) (uid : string) : string :=
  match memory fs !! uid with
  | Some d => summary d
  | None => "No long-term memory yet."
  end.

(** The summary as the curator reads it. *)
Definition currentMemory (fs : Firestore) (uid : string) : string :=
  match memory fs !! uid with
  | Some d => summary d
  | None => EmptyString
  end.

(** ** What the properties are stated with *)

Definition Callable : Type :=
  Env -> Firestore -> CallData -> CallableContext -> Eff string.

(** The prompt each revision builds for a user and a note. *)
Definition promptA (fs : Firestore) (uid : string) (rawText : option string) : string :=
  RevA.prompt (RevA.contextText (queryRecent fs uid 3)) rawText.

Definition promptC (fs : Firestore) (uid : string) (rawText : option string) : string :=
  RevC.prompt (memoryText fs uid) (RevC.contextHistory (queryRecent fs uid 3)) rawText.

(** The prompt the curator of revision C sends for a user. *)
Definition curatorPromptC (fs : Firestore) (uid : string) : string :=
  RevC.curatorPrompt (currentMemory fs uid) (RevC.recentHistory (queryRecent fs uid 15)).

(** The contract of the enhancement operation, for an implementation [f]
    that awaits the store calls [reads uid] and then sends [promptOf]:
    - no caller identity: [unauthenticated];
    - identity, but the text missing or empty: [invalid-argument];
    - identity and text, and a store call or the backend fails: [internal],
      with one message fixed in advance, whatever the failure's detail;
    - otherwise: the text the backend answered, unchanged. *)
Definition EnhancementContract (f : Callable)
    (promptOf : Firestore -> string -> option string -> string)
    (reads : string -> list StoreOp) : Prop :=
  (forall env fs data,
     exists msg,
       fst (runCallable (f env fs data (mkContext None)))
       = inl (HttpsError unauthenticated msg)) /\
  (forall env fs uid rawText,
     rawText = None \/ rawText = Some EmptyString ->
     exists msg,
       fst (runCallable (f env fs (mkCallData rawText) (mkContext (Some uid))))
       = inl (HttpsError invalid_argument msg)) /\
  (exists fixed,
     forall env fs data uid,
       missing (text data) = false ->
       let res := fst (runCallable (f env fs data (mkContext (Some uid)))) in
       ((exists op d, In op (reads uid) /\ fault env op = Some d) \/
        (exists d, generate env (promptOf fs uid (text data)) = inl d) ->
        res = inl (HttpsError internal fixed)) /\
       ((forall op, In op (reads uid) -> fault env op = None) ->
        forall t, generate env (promptOf fs uid (text data)) = inr t ->
                  res = inr t)).

(** Every prompt [f] sends embeds the caller's stored summary, or the
    placeholder when there is no summary document. *)
Definition EmbedsMemory (f : Callable) : Prop :=
  forall env fs data uid p,
    In (Generate p) (snd (runCallable (f env fs data (mkContext (Some uid))))) ->
    Js.embeds (memoryText fs uid) p.

(** An outcome that leaves the store as it was. *)
Definition aborted (e : Exn) (fs : Firestore) (tr : list Event) : Outcome TxReturn :=
  mkOutcome (inl e) fs (tr ++ [TxRollback]).

Definition isBoundary (e : Event) : bool :=
  match e with
  | TxBegin | TxCommit | TxRollback => true
  | _ => false
  end.

(** One transaction and nothing outside it: the trace begins the
    transaction, ends it, and does neither in between. *)
Definition oneTransaction (tr : list Event) : bool :=
  match tr with
  | TxBegin :: rest =>
      match rev rest with
      | TxCommit :: inner | TxRollback :: inner =>
          forallb (fun e => negb (isBoundary e)) inner
      | _ => false
      end
  | _ => false
  end.

(** Oldest first: the order of creation. *)
Definition olderFirst (a b : string * Receipt) : Prop := newerFirst b a.

(** No two entries of the user carry the same timestamp. *)
Definition distinctTimestamps (fs : Firestore) (uid : string) : Prop :=
  forall i j a b,
    collection fs uid !! i = Some a ->
    collection fs uid !! j = Some b ->
    timestamp a = timestamp b -> i = j.

(** The lines of a prompt for the entries the store returned: one line per
    entry, in the reverse of the order of retrieval. *)
Definition chronologicalLines (snapshot : list (string * Receipt)) : list string :=
  map (fun d => entryLine (snd d)) (rev snapshot).

(** ** Stores and environments to run the code on *)

(** A user with a summary and two entries. *)
Definition diary : Firestore :=
  mkFirestore
    {[ "u" := mkUserDoc (Some 5) ∅ ]}
    {[ "u" := mkMemoryDoc "Training for a marathon in May." 40 ]}
    {[ "u" := {[ "r1" := mkReceipt "bought running shoes" 10;
                 "r2" := mkReceipt "first 5k" 20 ]} ]}.

(** A user whose record holds the counter at zero. *)
Definition newcomer : Firestore :=
  mkFirestore {[ "u" := mkUserDoc (Some 0) ∅ ]} ∅ ∅.

(** A user at count 4 whose fifth entry has just been created, and who has
    no summary yet. *)
Definition veteran : Firestore :=
  mkFirestore
    {[ "u" := mkUserDoc (Some 4) ∅ ]}
    ∅
    {[ "u" := {[ "r1" := mkReceipt "note 1" 1; "r2" := mkReceipt "note 2" 2;
                 "r3" := mkReceipt "note 3" 3; "r4" := mkReceipt "note 4" 4;
                 "r5" := mkReceipt "note 5" 5 ]} ]}.

(** Entries to create, each with its id, the backend's answer and the
    server's time, while store and backend work. *)
Definition fiveNotes : list (string * Receipt * (string -> string) * Z) :=
  [ ("r1", mkReceipt "note 1" 1, fun _ => "A summary.", 101);
    ("r2", mkReceipt "note 2" 2, fun _ => "A summary.", 102);
    ("r3", mkReceipt "note 3" 3, fun _ => "A summary.", 103);
    ("r4", mkReceipt "note 4" 4, fun _ => "A summary.", 104);
    ("r5", mkReceipt "note 5" 5, fun _ => "A summary.", 105) ].

Definition sixNotes : list (string * Receipt * (string -> string) * Z) :=
  fiveNotes ++ [ ("r6", mkReceipt "note 6" 6, fun _ => "A summary.", 106) ].

(** A backend that is down. *)
Definition backendDown (now : Z) : Env :=
  mkEnv (fun _ => None) (fun _ => inl "503 Service Unavailable") now.

(** ** Editing and deleting an entry: src/unnamed/part_000, lines 285-319 *)

(** [{receiptId, newText}] and [{receiptId}]: each field is a string or is
    missing; a [receiptId] names a document of the caller's collection. *)
Record EditData := mkEditData {
  editId : option string;
  newText : option string
}.

Record DeleteData := mkDeleteData { deleteId : option string }.

(** [{status, message}], what the two callables return. *)
Record Reply := mkReply {
  status : string;
  replyMessage : string
}.

(** The writes made on a document reference, outside any transaction. *)
Inductive DocWrite :=
| DocUpdate (uid rid : string)   (* receiptRef.update({message: newText}) *)
| DocDelete (uid rid : string).  (* receiptRef.delete() *)

(** [receiptRef.update({message: newText})] applied: the document must
    exist; only its [message] changes. *)
Definition updateMessage (uid rid newText : string) (fs : Firestore)
    : option Firestore :=
  match collection fs uid !! rid with
  | Some r =>
      Some (mkFirestore (users fs) (memory fs)
              (<[uid := <[rid := mkReceipt newText (timestamp r)]> (collection fs uid)]>
                 (receipts fs)))
  | None => None
  end.

(** [receiptRef.delete()] applied: the document is gone afterwards, whether
    or not it was there. *)
Definition deleteDoc (uid rid : string) (fs : Firestore) : Firestore :=
  mkFirestore (users fs) (memory fs) (alter (delete rid) uid (receipts fs)).

(** [editReceipt].  [rejects] says which direct write the store rejects,
    and with what detail; the handler has no [try], so a rejection leaves
    it as it is. *)
Definition editReceipt (rejects : DocWrite -> option string) (fs : Firestore)
    (data : EditData) (context : CallableContext) : (Exn + Reply) * Firestore :=
  match auth context with
  | None => (inl (HttpsError unauthenticated "Auth required."), fs)
  | Some uid =>
      if missing (editId data) || missing (newText data) then
        (inl (HttpsError invalid_argument "ID/Text needed."), fs)
      else
        let receiptId := rendered (editId data) in
        match rejects (DocUpdate uid receiptId) with
        | Some detail => (inl (StoreError detail), fs)
        | None =>
            match updateMessage uid receiptId (rendered (newText data)) fs with
            | Some fs' => (inr (mkReply "success" "Receipt updated."), fs')
            | None => (inl (StoreError "NOT_FOUND"), fs)
            end
        end
  end.

(** [deleteReceipt]. *)
Definition deleteReceipt (rejects : DocWrite -> option string) (fs : Firestore)
    (data : DeleteData) (context : CallableContext) : (Exn + Reply) * Firestore :=
  match auth context with
  | None => (inl (HttpsError unauthenticated "Auth required."), fs)
  | Some uid =>
      if missing (deleteId data) then
        (inl (HttpsError invalid_argument "ID needed."), fs)
      else
        let receiptId := rendered (deleteId data) in
        match rejects (DocDelete uid receiptId) with
        | Some detail => (inl (StoreError detail), fs)
        | None => (inr (mkReply "success" "Receipt deleted."), deleteDoc uid receiptId fs)
        end
  end.

(** No direct write is rejected. *)
Definition accepting : DocWrite -> option string := fun _ => None.

(** ** What the further properties are stated with *)

(** A transaction committed. *)
Definition isCommit (e : Event) : bool :=
  match e with
  | TxCommit => true
  | _ => false
  end.

(** How many transactions of a trace committed. *)
Definition commits (tr : list Event) : nat :=
  length (filter (fun e => isCommit e = true) tr).



(** Two stores hold the same documents for a user. *)
Definition sameFor (uid : string) (fs1 fs2 : Firestore) : Prop :=
  users fs1 !! uid = users fs2 !! uid /\
  memory fs1 !! uid = memory fs2 !! uid /\
  collection fs1 uid = collection fs2 uid.

(** The entry [rid] with its message replaced, any other entry as it is. *)
Definition withMessage (rid newText : string) (d : string * Receipt)
    : string * Receipt :=
  if decide (fst d = rid) then (fst d, mkReceipt newText (timestamp (snd d))) else d.

(** The store fails on the second read of the refresh, or the backend is
    down, for a creation. *)
Definition failingCreation (rid : string) (r : Receipt) (now : Z) : Creation :=
  mkCreation rid r (backendDown now).

(** A store differs from another at most in the record and the summary of
    one user: the entries, every other user's record and summary, and the
    other fields of that user's record are the same. *)
Definition touchesOnly (uid : string) (fs fs' : Firestore) : Prop :=
  receipts fs' = receipts fs /\
  (forall other, other <> uid ->
     users fs' !! other = users fs !! other /\
     memory fs' !! other = memory fs !! other) /\
  otherFields fs' uid = otherFields fs uid.

(** Two users whose entries carry the same id. *)
Definition neighbours : Firestore :=
  mkFirestore ∅ ∅
    {[ "u" := {[ "r1" := mkReceipt "mine" 1 ]};
       "v" := {[ "r1" := mkReceipt "theirs" 2 ]} ]}.

(** * Properties *)

(** ** Strings *)

Lemma append_cons (x : ascii) (a b : string) :
  String x a +:+ b = String x (a +:+ b).
Proof. reflexivity. Qed.

Lemma append_nil_l (a : string) : EmptyString +:+ a = a.
Proof. reflexivity. Qed.

Lemma append_assoc (a b c : string) : (a +:+ b) +:+ c = a +:+ (b +:+ c).
Proof.
  induction a as [|x a IH]; [reflexivity|].
  rewrite !append_cons. now rewrite IH.
Qed.

Lemma append_nil_r (a : string) : a +:+ EmptyString = a.
Proof.
  induction a as [|x a IH]; [reflexivity|].
  rewrite append_cons. now rewrite IH.
Qed.

Lemma embeds_refl (s : string) : Js.embeds s s.
Proof. exists EmptyString, EmptyString. now rewrite append_nil_l, append_nil_r. Qed.

Lemma embeds_app_l (s t u : string) : Js.embeds s t -> Js.embeds s (t +:+ u).
Proof.
  intros (pre & post & ->). exists pre, (post +:+ u).
  now rewrite !append_assoc.
Qed.

Lemma embeds_app_r (s t u : string) : Js.embeds s t -> Js.embeds s (u +:+ t).
Proof.
  intros (pre & post & ->). exists (u +:+ pre), post.
  now rewrite !append_assoc.
Qed.

(** An element of a joined array occurs in the result. *)
Lemma embeds_join (sep x : string) (xs : list string) :
  In x xs -> Js.embeds x (Js.join sep xs).
Proof.
  unfold Js.join. induction xs as [|y ys IH]; [intros []|].
  intros [-> | Hin].
  - destruct ys as [|z zs]; [apply embeds_refl|].
    change (String.concat sep (x :: z :: zs))
      with (x +:+ sep +:+ String.concat sep (z :: zs)).
    apply embeds_app_l, embeds_refl.
  - destruct ys as [|z zs]; [destruct Hin|].
    change (String.concat sep (y :: z :: zs))
      with (y +:+ sep +:+ String.concat sep (z :: zs)).
    apply embeds_app_r, embeds_app_r, IH, Hin.
Qed.

Lemma prefix_app (s post : string) : String.prefix s (s +:+ post) = true.
Proof.
  induction s as [|c s IH]; [now destruct post|].
  rewrite append_cons. cbn [String.prefix].
  destruct (ascii_dec c c); [exact IH | congruence].
Qed.

(** [occurs] finds every occurrence. *)
Lemma occurs_complete (s t : string) : Js.embeds s t -> Js.occurs s t = true.
Proof.
  intros (pre & post & ->). induction pre as [|c pre IH].
  - rewrite append_nil_l.
    destruct (s +:+ post) eqn:E; cbn [Js.occurs]; rewrite <- E, prefix_app; reflexivity.
  - rewrite append_cons. cbn [Js.occurs]. rewrite IH. apply orb_true_r.
Qed.

(** ** Running the effects *)

Ltac unfold_eff :=
  unfold runCallable, runTransaction, tryCatch, bind, ret, throw, emit,
    txGetUser, getMemory, getRecent, generateContent, storeCall, txWrite,
    Snapshot.callExists, Snapshot.dataField, Snapshot.exists_ in *.

(** ** The enhancement operation, revision by revision *)

(** Revision A, step by step: the query, the backend, the result. *)
Lemma revA_enhance_run (env : Env) (fs : Firestore) (data : CallData) (uid : string) :
  missing (text data) = false ->
  runCallable (RevA.getEnhancedReceipt env fs data (mkContext (Some uid))) =
  match fault env (OpQuery uid) with
  | Some d =>
      (inl (HttpsError internal "Failed to get a response from the AI Scribe."),
       [DbQuery uid 3; LogError "Error calling Gemini API:" (StoreError d)])
  | None =>
      match generate env (promptA fs uid (text data)) with
      | inl d =>
          (inl (HttpsError internal "Failed to get a response from the AI Scribe."),
           [DbQuery uid 3; Generate (promptA fs uid (text data));
            LogError "Error calling Gemini API:" (ProviderError d)])
      | inr t =>
          (inr t, [DbQuery uid 3; Generate (promptA fs uid (text data))])
      end
  end.
Proof.
  intros Htext. unfold RevA.getEnhancedReceipt, promptA. cbn [auth].
  rewrite Htext. unfold_eff. cbn.
  destruct (fault env (OpQuery uid)); [reflexivity|]. cbn.
  destruct (generate env _); reflexivity.
Qed.

(** Revision C, step by step: the summary, the query, the backend. *)
Lemma revC_enhance_run (env : Env) (fs : Firestore) (data : CallData) (uid : string) :
  missing (text data) = false ->
  runCallable (RevC.getEnhancedReceipt env fs data (mkContext (Some uid))) =
  match fault env (OpGet (MemoryRef uid)) with
  | Some d =>
      (inl (HttpsError internal "AI Scribe failed."),
       [DbGet (MemoryRef uid);
        LogError "CRITICAL: Gemini API Error in Scribe:" (StoreError d)])
  | None =>
      match fault env (OpQuery uid) with
      | Some d =>
          (inl (HttpsError internal "AI Scribe failed."),
           [DbGet (MemoryRef uid); DbQuery uid 3;
            LogError "CRITICAL: Gemini API Error in Scribe:" (StoreError d)])
      | None =>
          match generate env (promptC fs uid (text data)) with
          | inl d =>
              (inl (HttpsError internal "AI Scribe failed."),
               [DbGet (MemoryRef uid); DbQuery uid 3;
                Generate (promptC fs uid (text data));
                LogError "CRITICAL: Gemini API Error in Scribe:" (ProviderError d)])
          | inr t =>
              (inr t, [DbGet (MemoryRef uid); DbQuery uid 3;
                       Generate (promptC fs uid (text data))])
          end
      end
  end.
Proof.
  intros Htext. unfold RevC.getEnhancedReceipt, promptC, memoryText. cbn [auth].
  rewrite Htext. unfold_eff. cbn.
  destruct (fault env (OpGet (MemoryRef uid))); [reflexivity|]. cbn.
  destruct (memory fs !! uid) as [doc|]; cbn;
    (destruct (fault env (OpQuery uid)); [reflexivity|]); cbn;
    destruct (generate env _); reflexivity.
Qed.

(** Revision B stops at [memoryDoc.exists()], whatever the store holds and
    the backend would answer. *)
Lemma revB_enhance_run (env : Env) (fs : Firestore) (data : CallData) (uid : string) :
  missing (text data) = false ->
  runCallable (RevB.getEnhancedReceipt env fs data (mkContext (Some uid))) =
  (inl (HttpsError internal "Failed to get a response from the AI Scribe."),
   [DbGet (MemoryRef uid);
    LogError "Error calling Gemini API:"
      match fault env (OpGet (MemoryRef uid)) with
      | Some d => StoreError d
      | None => TypeError "memoryDoc.exists is not a function"
      end]).
Proof.
  intros Htext. unfold RevB.getEnhancedReceipt. cbn [auth].
  rewrite Htext. unfold_eff. cbn.
  destruct (fault env (OpGet (MemoryRef uid))); reflexivity.
Qed.

(** A call without the text, or with the empty text. *)
Lemma missing_text (rawText : option string) :
  rawText = None \/ rawText = Some EmptyString -> missing rawText = true.
Proof. intros [-> | ->]; reflexivity. Qed.

Lemma revA_contract :
  EnhancementContract RevA.getEnhancedReceipt promptA (fun uid => [OpQuery uid]).
Proof.
  split; [|split].
  - intros env fs data. eexists. reflexivity.
  - intros env fs uid rawText H. eexists.
    unfold runCallable, RevA.getEnhancedReceipt. cbn [auth text].
    rewrite (missing_text _ H). reflexivity.
  - eexists. intros env fs data uid Htext. cbn zeta.
    rewrite (revA_enhance_run env fs data uid Htext). split.
    + intros [(op & d & Hin & Hop) | (d & Hgen)].
      * destruct Hin as [<- | []]. rewrite Hop. reflexivity.
      * destruct (fault env (OpQuery uid)); [reflexivity|].
        rewrite Hgen. reflexivity.
    + intros Hreads t Hgen.
      rewrite (Hreads (OpQuery uid)) by (left; reflexivity).
      rewrite Hgen. reflexivity.
Qed.

Lemma revC_contract :
  EnhancementContract RevC.getEnhancedReceipt promptC
    (fun uid => [OpGet (MemoryRef uid); OpQuery uid]).
Proof.
  split; [|split].
  - intros env fs data. eexists. reflexivity.
  - intros env fs uid rawText H. eexists.
    unfold runCallable, RevC.getEnhancedReceipt. cbn [auth text].
    rewrite (missing_text _ H). reflexivity.
  - eexists. intros env fs data uid Htext. cbn zeta.
    rewrite (revC_enhance_run env fs data uid Htext). split.
    + intros [(op & d & Hin & Hop) | (d & Hgen)].
      * destruct Hin as [<- | [<- | []]].
        -- rewrite Hop. reflexivity.
        -- destruct (fault env (OpGet (MemoryRef uid))); [reflexivity|].
           rewrite Hop. reflexivity.
      * destruct (fault env (OpGet (MemoryRef uid))); [reflexivity|].
        destruct (fault env (OpQuery uid)); [reflexivity|].
        rewrite Hgen. reflexivity.
    + intros Hreads t Hgen.
      rewrite (Hreads (OpGet (MemoryRef uid))) by (left; reflexivity).
      rewrite (Hreads (OpQuery uid)) by (right; left; reflexivity).
      rewrite Hgen. reflexivity.
Qed.

(** Revision B never hands the backend's text to the caller. *)
Lemma revB_never_answers (env : Env) (fs : Firestore) (data : CallData)
    (context : CallableContext) (t : string) :
  fst (runCallable (RevB.getEnhancedReceipt env fs data context)) <> inr t.
Proof.
  destruct context as [[uid|]]; [|discriminate].
  destruct (missing (text data)) eqn:Htext.
  - unfold runCallable, RevB.getEnhancedReceipt. cbn [auth].
    rewrite Htext. discriminate.
  - rewrite (revB_enhance_run env fs data uid Htext). discriminate.
Qed.

(** C9: the enhancement operation fails [unauthenticated] without a caller
    identity, [invalid-argument] for an authenticated call whose text is
    missing or empty, [internal] with a fixed message when a store call or
    the backend fails, and otherwise returns the backend's text unchanged.
    Revisions A and C keep this contract.  Revision B does not: a call with
    an identity and a text, against a store and a backend that both work,
    stops at [memoryDoc.exists()] and fails [internal]; no call of
    revision B ever returns a text. *)
Theorem enhancement_failure_kinds :
  EnhancementContract RevA.getEnhancedReceipt promptA (fun uid => [OpQuery uid]) /\
  EnhancementContract RevC.getEnhancedReceipt promptC
    (fun uid => [OpGet (MemoryRef uid); OpQuery uid]) /\
  runCallable
    (RevB.getEnhancedReceipt (healthy (fun _ => "A polished entry.") 0) emptyStore
       (mkCallData (Some "went for a run")) (mkContext (Some "u")))
  = (inl (HttpsError internal "Failed to get a response from the AI Scribe."),
     [DbGet (MemoryRef "u");
      LogError "Error calling Gemini API:"
        (TypeError "memoryDoc.exists is not a function")]) /\
  (forall env fs data context t,
     fst (runCallable (RevB.getEnhancedReceipt env fs data context)) <> inr t).
Proof.
  split; [exact revA_contract | split; [exact revC_contract | split]].
  - reflexivity.
  - exact revB_never_answers.
Qed.

(** The contract at work in revision C: nothing fails, and the caller gets
    what the backend wrote. *)
Lemma enhancement_failure_kinds_witness :
  fst (runCallable
         (RevC.getEnhancedReceipt (healthy (fun _ => "A polished entry.") 0)
            emptyStore (mkCallData (Some "went for a run")) (mkContext (Some "u"))))
  = inr "A polished entry.".
Proof.
  destruct enhancement_failure_kinds as (_ & (_ & _ & fixed & H) & _ & _).
  apply (H (healthy (fun _ => "A polished entry.") 0) emptyStore
           (mkCallData (Some "went for a run")) "u" eq_refl).
  - intros op _. reflexivity.
  - reflexivity.
Defined.

(** C10: the authentication check comes first.  A call without a caller
    identity fails [unauthenticated] whatever its text is, missing and
    empty texts included, and before the store or the backend is touched;
    this holds in the three revisions. *)
Theorem auth_check_precedes_validation (env : Env) (fs : Firestore) (data : CallData) :
  runCallable (RevA.getEnhancedReceipt env fs data (mkContext None))
  = (inl (HttpsError unauthenticated "You must be logged in to use the AI Scribe."), []) /\
  runCallable (RevB.getEnhancedReceipt env fs data (mkContext None))
  = (inl (HttpsError unauthenticated "You must be logged in to use the AI Scribe."), []) /\
  runCallable (RevC.getEnhancedReceipt env fs data (mkContext None))
  = (inl (HttpsError unauthenticated "Auth required."), []).
Proof. repeat split. Qed.

(** ** The prompt and the long-term memory *)

Lemma promptC_embeds_memory (fs : Firestore) (uid : string) (rawText : option string) :
  Js.embeds (memoryText fs uid) (promptC fs uid rawText).
Proof.
  unfold promptC, RevC.prompt. apply embeds_join. cbn. tauto.
Qed.

(** The only prompt revision C sends is [promptC]. *)
Lemma revC_prompt_sent (env : Env) (fs : Firestore) (data : CallData)
    (uid p : string) :
  In (Generate p)
     (snd (runCallable (RevC.getEnhancedReceipt env fs data (mkContext (Some uid))))) ->
  p = promptC fs uid (text data).
Proof.
  destruct (missing (text data)) eqn:Htext.
  - unfold runCallable, RevC.getEnhancedReceipt. cbn [auth].
    rewrite Htext. intros [].
  - rewrite (revC_enhance_run env fs data uid Htext).
    destruct (fault env (OpGet (MemoryRef uid))); cbn.
    { intros [H | [H | []]]; discriminate. }
    destruct (fault env (OpQuery uid)); cbn.
    { intros [H | [H | [H | []]]]; discriminate. }
    destruct (generate env _); cbn.
    + intros [H | [H | [H | [H | []]]]]; try discriminate. now inversion H.
    + intros [H | [H | [H | []]]]; try discriminate. now inversion H.
Qed.

(** The only prompt revision A sends is [promptA]. *)
Lemma revA_prompt_sent (env : Env) (fs : Firestore) (data : CallData)
    (uid p : string) :
  In (Generate p)
     (snd (runCallable (RevA.getEnhancedReceipt env fs data (mkContext (Some uid))))) ->
  p = promptA fs uid (text data).
Proof.
  destruct (missing (text data)) eqn:Htext.
  - unfold runCallable, RevA.getEnhancedReceipt. cbn [auth].
    rewrite Htext. intros [].
  - rewrite (revA_enhance_run env fs data uid Htext).
    destruct (fault env (OpQuery uid)); cbn.
    { intros [H | [H | []]]; discriminate. }
    destruct (generate env _); cbn.
    + intros [H | [H | [H | []]]]; try discriminate. now inversion H.
    + intros [H | [H | []]]; try discriminate. now inversion H.
Qed.

(** C4, as stated, fails on revision A: for a user whose summary document
    reads "Training for a marathon in May.", the prompt sent to the
    backend does not contain that text. *)
Lemma revA_prompt_omits_memory :
  let run := runCallable
               (RevA.getEnhancedReceipt (healthy (fun _ => "A polished entry.") 0)
                  diary (mkCallData (Some "went for a run")) (mkContext (Some "u"))) in
  let p := promptA diary "u" (Some "went for a run") in
  memoryText diary "u" = "Training for a marathon in May." /\
  In (Generate p) (snd run) /\
  ~ Js.embeds (memoryText diary "u") p /\
  ~ EmbedsMemory RevA.getEnhancedReceipt.
Proof.
  cbn zeta.
  assert (Hin : In (Generate (promptA diary "u" (Some "went for a run")))
                  (snd (runCallable
                          (RevA.getEnhancedReceipt
                             (healthy (fun _ => "A polished entry.") 0) diary
                             (mkCallData (Some "went for a run"))
                             (mkContext (Some "u")))))).
  { right. left. reflexivity. }
  assert (Hno : ~ Js.embeds (memoryText diary "u")
                    (promptA diary "u" (Some "went for a run"))).
  { intros H. apply occurs_complete in H. vm_compute in H. discriminate. }
  repeat split; [exact Hin | exact Hno |].
  intros Hall. apply Hno. exact (Hall _ _ _ _ _ Hin).
Qed.

(** C4, amended: in revision C every prompt the enhancement operation sends
    is the template filled with the caller's stored summary, or with "No
    long-term memory yet." when the user has no summary document, so it
    embeds that text, and one such prompt is sent whenever the call has an
    identity and a text and the two reads succeed; revision A has no
    long-term memory, and its prompt is built from the recent entries and
    the note alone. *)
Theorem enhancement_prompt_memory :
  EmbedsMemory RevC.getEnhancedReceipt /\
  (forall env fs data uid p,
     In (Generate p)
        (snd (runCallable (RevC.getEnhancedReceipt env fs data (mkContext (Some uid))))) ->
     p = RevC.prompt (memoryText fs uid)
           (RevC.contextHistory (queryRecent fs uid 3)) (text data)) /\
  (forall env fs data uid,
     missing (text data) = false ->
     fault env (OpGet (MemoryRef uid)) = None ->
     fault env (OpQuery uid) = None ->
     In (Generate (promptC fs uid (text data)))
        (snd (runCallable (RevC.getEnhancedReceipt env fs data (mkContext (Some uid)))))) /\
  (forall env fs data uid p,
     In (Generate p)
        (snd (runCallable (RevA.getEnhancedReceipt env fs data (mkContext (Some uid))))) ->
     p = RevA.prompt (RevA.contextText (queryRecent fs uid 3)) (text data)).
Proof.
  split; [|split; [|split]].
  - intros env fs data uid p Hin.
    apply revC_prompt_sent in Hin. subst p. apply promptC_embeds_memory.
  - intros env fs data uid p Hin. now apply revC_prompt_sent in Hin.
  - intros env fs data uid Htext Hget Hquery.
    rewrite (revC_enhance_run env fs data uid Htext), Hget, Hquery.
    destruct (generate env _); cbn; tauto.
  - intros env fs data uid p Hin. now apply revA_prompt_sent in Hin.
Qed.

(** The amended claim at work: the prompt revision C sends for the user of
    [diary] contains the stored summary. *)
Lemma enhancement_prompt_memory_witness :
  Js.embeds "Training for a marathon in May."
    (promptC diary "u" (Some "went for a run")).
Proof.
  apply (proj1 enhancement_prompt_memory
           (healthy (fun _ => "A polished entry.") 0) diary
           (mkCallData (Some "went for a run")) "u").
  right. right. left. reflexivity.
Defined.

(** ** The batch trigger, revision by revision *)

(** Revision C, step by step. *)
Lemma revC_trigger_run (env : Env) (fs : Firestore) (uid : string) :
  let newCount := currentCount fs uid + 1 in
  let counted := [TxBegin; TxGet (UserRef uid); TxWrite (SetMerge uid newCount)] in
  let prompt := curatorPromptC fs uid in
  RevC.updateMemoryOnNewReceipt env fs uid =
  match fault env (OpGet (UserRef uid)) with
  | Some d => aborted (StoreError d) fs [TxBegin; TxGet (UserRef uid)]
  | None =>
    if negb (Z.rem newCount 5 =? 0) then
      match fault env OpCommit with
      | Some d => aborted (StoreError d) fs counted
      | None =>
          mkOutcome (inr RetNull)
            (setCount uid newCount (otherFields fs uid) fs)
            (counted ++ [TxCommit])
      end
    else
      match fault env (OpQuery uid) with
      | Some d => aborted (StoreError d) fs (counted ++ [DbQuery uid 15])
      | None =>
        match fault env (OpGet (MemoryRef uid)) with
        | Some d =>
            aborted (StoreError d) fs
              (counted ++ [DbQuery uid 15; DbGet (MemoryRef uid)])
        | None =>
          match generate env prompt with
          | inl d =>
              aborted (ProviderError d) fs
                (counted ++ [DbQuery uid 15; DbGet (MemoryRef uid); Generate prompt])
          | inr t =>
            match fault env OpCommit with
            | Some d =>
                aborted (StoreError d) fs
                  (counted ++ [DbQuery uid 15; DbGet (MemoryRef uid);
                               Generate prompt; TxWrite (SetSummary uid t)])
            | None =>
                mkOutcome (inr RetTransaction)
                  (setSummary uid t (serverTime env)
                     (setCount uid newCount (otherFields fs uid) fs))
                  (counted ++ [DbQuery uid 15; DbGet (MemoryRef uid);
                               Generate prompt; TxWrite (SetSummary uid t);
                               TxCommit])
            end
          end
        end
      end
  end.
Proof.
  cbn zeta. unfold RevC.updateMemoryOnNewReceipt, RevC.transactionBody,
    curatorPromptC, currentCount, currentMemory, aborted.
  unfold_eff. cbn.
  destruct (fault env (OpGet (UserRef uid))); [reflexivity|]. cbn.
  destruct (users fs !! uid) as [doc|]; cbn;
    (destruct (negb _); cbn;
     [ destruct (fault env OpCommit); reflexivity | ]);
    (destruct (fault env (OpQuery uid)); [reflexivity|]); cbn;
    (destruct (fault env (OpGet (MemoryRef uid))); [reflexivity|]); cbn;
    (destruct (memory fs !! uid) as [mem|]); cbn;
    (destruct (generate env _); [reflexivity|]); cbn;
    destruct (fault env OpCommit); reflexivity.
Qed.

(** Revision B, step by step: it needs the user record, and its refresh
    path ends at [memoryDoc.exists()]. *)
Lemma revB_trigger_run (env : Env) (fs : Firestore) (uid : string) :
  RevB.updateMemoryOnNewReceipt env fs uid =
  match fault env (OpGet (UserRef uid)) with
  | Some d => aborted (StoreError d) fs [TxBegin; TxGet (UserRef uid)]
  | None =>
    match users fs !! uid with
    | None =>
        aborted (TypeError "Cannot read properties of undefined") fs
          [TxBegin; TxGet (UserRef uid)]
    | Some doc =>
      let newCount := Snapshot.orZero (receiptCount doc) + 1 in
      let counted := [TxBegin; TxGet (UserRef uid); TxWrite (Update uid newCount)] in
      if negb (Z.rem newCount 5 =? 0) then
        match fault env OpCommit with
        | Some d => aborted (StoreError d) fs counted
        | None =>
            mkOutcome (inr RetNull) (setCount uid newCount (profile doc) fs)
              (counted ++ [TxCommit])
        end
      else
        match fault env (OpQuery uid) with
        | Some d =>
            aborted (StoreError d) fs
              (counted ++ [LogInfo uid newCount; DbQuery uid 15])
        | None =>
            aborted
              match fault env (OpGet (MemoryRef uid)) with
              | Some d => StoreError d
              | None => TypeError "memoryDoc.exists is not a function"
              end
              fs
              (counted ++ [LogInfo uid newCount; DbQuery uid 15;
                           DbGet (MemoryRef uid)])
        end
    end
  end.
Proof.
  unfold RevB.updateMemoryOnNewReceipt, RevB.transactionBody, aborted.
  unfold_eff. cbn.
  destruct (fault env (OpGet (UserRef uid))); [reflexivity|]. cbn.
  destruct (users fs !! uid) as [doc|] eqn:Hdoc; cbn; [|reflexivity].
  destruct (negb _); cbn.
  - destruct (fault env OpCommit); [reflexivity|]. rewrite Hdoc. reflexivity.
  - destruct (fault env (OpQuery uid)); [reflexivity|]. cbn.
    destruct (fault env (OpGet (MemoryRef uid))); reflexivity.
Qed.

(** A transaction that fails leaves the store as it was. *)
Lemma runTransaction_failed {A} (env : Env) (fs : Firestore) (body : Eff A) (e : Exn) :
  result (runTransaction env fs body) = inl e ->
  store (runTransaction env fs body) = fs.
Proof.
  unfold runTransaction.
  destruct (body _) as [[e' | v] r]; [reflexivity|].
  destruct (fault env OpCommit); [reflexivity|].
  destruct (applyWrites _ _ _); [discriminate | reflexivity].
Qed.

Lemma orZero_Some (n : Z) : Snapshot.orZero (Some n) = n.
Proof. unfold Snapshot.orZero. destruct (Z.eqb_spec n 0); congruence. Qed.

Lemma currentCount_setCount (uid : string) (n : Z) (fields : gmap string string)
    (fs : Firestore) :
  currentCount (setCount uid n fields fs) uid = n.
Proof.
  unfold currentCount, setCount. cbn [users].
  rewrite lookup_insert_eq. cbn [receiptCount]. apply orZero_Some.
Qed.

Lemma currentCount_setSummary (uid uid' text : string) (now : Z) (fs : Firestore) :
  currentCount (setSummary uid' text now fs) uid = currentCount fs uid.
Proof. reflexivity. Qed.

(** ** The counter and the trigger condition *)

(** The refresh runs of one invocation of revision C when nothing fails. *)
Lemma revC_healthy_invocation (g : string -> string) (now : Z) (fs : Firestore)
    (uid : string) :
  let newCount := currentCount fs uid + 1 in
  let o := RevC.updateMemoryOnNewReceipt (healthy g now) fs uid in
  currentCount (store o) uid = newCount /\
  refreshRuns (events o) = (if Z.rem newCount 5 =? 0 then 1%nat else 0%nat) /\
  result o = inr (if Z.rem newCount 5 =? 0 then RetTransaction else RetNull).
Proof.
  cbn zeta. rewrite revC_trigger_run. cbn [fault healthy generate].
  destruct (Z.rem (currentCount fs uid + 1) 5 =? 0); cbn [negb].
  - cbn [store events result]. rewrite currentCount_setSummary, currentCount_setCount.
    repeat split.
  - cbn [store events result]. rewrite currentCount_setCount. repeat split.
Qed.

Lemma refreshRuns_app (a b : list Event) :
  refreshRuns (a ++ b) = (refreshRuns a + refreshRuns b)%nat.
Proof. unfold refreshRuns. now rewrite filter_app, length_app. Qed.

Lemma trigger_step_arith (c : Z) :
  0 <= c ->
  (c + 1) / 5 - c / 5 = if Z.rem (c + 1) 5 =? 0 then 1 else 0.
Proof.
  intros Hc. rewrite Z.rem_mod_nonneg by lia.
  destruct (Z.eqb_spec ((c + 1) mod 5) 0) as [E | E];
    pose proof (Z.div_mod (c + 1) 5 ltac:(lia));
    pose proof (Z.div_mod c 5 ltac:(lia));
    pose proof (Z.mod_pos_bound (c + 1) 5 ltac:(lia));
    pose proof (Z.mod_pos_bound c 5 ltac:(lia)); lia.
Qed.

(** Sequential creations against revision C, from any non-negative count. *)
Lemma revC_sequential (uid : string)
    (xs : list (string * Receipt * (string -> string) * Z)) :
  forall fs,
    0 <= currentCount fs uid ->
    let c0 := currentCount fs uid in
    let m := Z.of_nat (length xs) in
    let '(fs', tr) := createAll RevC.updateMemoryOnNewReceipt uid
                        (map healthyCreation xs) fs in
    currentCount fs' uid = c0 + m /\
    Z.of_nat (refreshRuns tr) = (c0 + m) / 5 - c0 / 5.
Proof.
  induction xs as [|[[[rid r] g] now] xs IH]; intros fs Hc; cbn zeta.
  - cbn. split; [lia|]. rewrite Z.add_0_r. lia.
  - cbn [map healthyCreation createAll].
    unfold onCreate. cbn [creationEnv receiptId entry].
    set (fs1 := addReceipt uid rid r fs).
    destruct (revC_healthy_invocation g now fs1 uid) as (Hcount & Hruns & _).
    set (o := RevC.updateMemoryOnNewReceipt (healthy g now) fs1 uid) in *.
    assert (Hfs1 : currentCount fs1 uid = currentCount fs uid) by reflexivity.
    rewrite Hfs1 in Hcount, Hruns.
    specialize (IH (store o)). rewrite Hcount in IH.
    specialize (IH ltac:(lia)). cbn zeta in IH.
    destruct (createAll _ _ _ (store o)) as [fs' tr].
    destruct IH as (IHc & IHr). rewrite refreshRuns_app, Hruns.
    rewrite length_cons, Nat2Z.inj_succ, Nat2Z.inj_add.
    split; [lia|].
    pose proof (trigger_step_arith (currentCount fs uid) Hc) as Hstep.
    replace (currentCount fs uid + Z.succ (Z.of_nat (length xs)))
      with (currentCount fs uid + 1 + Z.of_nat (length xs)) by lia.
    destruct (Z.rem (currentCount fs uid + 1) 5 =? 0); lia.
Qed.

(** C1: processed one after the other, every invocation of the batch
    trigger adds exactly 1 to [receiptCount], the refresh path runs on an
    invocation exactly when the new count is a multiple of 5, and after m
    creations for a new user the refresh has run m / 5 times.  Revision C
    does this whenever the store and the backend work.  Revision B does
    not: its refresh path stops at [memoryDoc.exists()], so the fifth
    creation is rolled back, the counter stays at 4 and the refresh path
    is entered again by every later creation; after six creations it was
    entered twice and no summary exists.  For a user without a record
    every invocation of revision B throws before it counts: after six
    creations there is still no counter and the refresh never ran. *)
Theorem batch_trigger_counts :
  (forall g now fs uid,
     let newCount := currentCount fs uid + 1 in
     let o := RevC.updateMemoryOnNewReceipt (healthy g now) fs uid in
     currentCount (store o) uid = newCount /\
     refreshRuns (events o) = (if Z.rem newCount 5 =? 0 then 1%nat else 0%nat)) /\
  (forall uid xs fs,
     currentCount fs uid = 0 ->
     let run := createAll RevC.updateMemoryOnNewReceipt uid
                  (map healthyCreation xs) fs in
     currentCount (fst run) uid = Z.of_nat (length xs) /\
     refreshRuns (snd run) = (length xs / 5)%nat) /\
  (let run := createAll RevB.updateMemoryOnNewReceipt "u"
                (map healthyCreation sixNotes) newcomer in
   currentCount (fst run) "u" = 4 /\
   refreshRuns (snd run) = 2%nat /\
   memory (fst run) !! "u" = None) /\
  (let run := createAll RevB.updateMemoryOnNewReceipt "u"
                (map healthyCreation sixNotes) emptyStore in
   users (fst run) !! "u" = None /\
   refreshRuns (snd run) = 0%nat /\
   memory (fst run) !! "u" = None).
Proof.
  split; [|split; [|split]].
  - intros g now fs uid. cbn zeta.
    destruct (revC_healthy_invocation g now fs uid) as (H1 & H2 & _). now split.
  - intros uid xs fs Hzero. cbn zeta.
    pose proof (revC_sequential uid xs fs) as H. rewrite Hzero in H.
    specialize (H ltac:(lia)). cbn zeta in H.
    destruct (createAll _ _ _ fs) as [fs' tr]. cbn [fst snd].
    destruct H as (Hc & Hr). split; [lia|].
    apply Nat2Z.inj. rewrite Hr, Nat2Z.inj_div. cbn. now rewrite Z.sub_0_r.
  - vm_compute. repeat split.
  - vm_compute. repeat split.
Qed.

(** Five creations for [newcomer] against revision C: the counter reaches
    5 and the refresh has run once. *)
Lemma batch_trigger_counts_witness :
  let run := createAll RevC.updateMemoryOnNewReceipt "u"
               (map healthyCreation fiveNotes) newcomer in
  currentCount (fst run) "u" = 5 /\ refreshRuns (snd run) = 1%nat.
Proof.
  exact (proj1 (proj2 batch_trigger_counts) "u" fiveNotes newcomer eq_refl).
Defined.

(** C2: the trigger does not need an initialised User record.  In revision
    C a missing record and a missing [receiptCount] both count as 0, and
    the write-back creates or merges the record with [receiptCount] 1,
    keeping the other fields.  Revision B reads [userDoc.data()] without
    asking whether the record exists and writes with [update]: for a user
    without a record the invocation throws and nothing is written. *)
Theorem trigger_without_user_record :
  (forall env fs uid,
     fault env (OpGet (UserRef uid)) = None ->
     fault env OpCommit = None ->
     users fs !! uid = None \/
     (exists d, users fs !! uid = Some d /\ receiptCount d = None) ->
     let o := RevC.updateMemoryOnNewReceipt env fs uid in
     result o = inr RetNull /\
     events o = [TxBegin; TxGet (UserRef uid); TxWrite (SetMerge uid 1); TxCommit] /\
     users (store o) !! uid = Some (mkUserDoc (Some 1) (otherFields fs uid))) /\
  (let fs := addReceipt "u" "r1" (mkReceipt "note 1" 1) emptyStore in
   let o := RevB.updateMemoryOnNewReceipt (healthy (fun _ => "A summary.") 101) fs "u" in
   result o = inl (TypeError "Cannot read properties of undefined") /\
   events o = [TxBegin; TxGet (UserRef "u"); TxRollback] /\
   store o = fs).
Proof.
  split.
  - intros env fs uid Hget Hcommit Hdoc. cbn zeta.
    assert (Hc : currentCount fs uid = 0).
    { unfold currentCount. destruct Hdoc as [-> | (d & -> & ->)]; reflexivity. }
    rewrite revC_trigger_run, Hget, Hcommit, Hc. cbn.
    repeat split. apply lookup_insert_eq.
  - cbn zeta. rewrite revB_trigger_run. repeat split.
Qed.

(** The first creation ever for user "u" against revision C: the record is
    created with the counter at 1. *)
Lemma trigger_without_user_record_witness :
  let fs := addReceipt "u" "r1" (mkReceipt "note 1" 1) emptyStore in
  users (store (RevC.updateMemoryOnNewReceipt
                  (healthy (fun _ => "A summary.") 101) fs "u")) !! "u"
  = Some (mkUserDoc (Some 1) ∅).
Proof.
  cbn zeta.
  apply (proj1 trigger_without_user_record
           (healthy (fun _ => "A summary.") 101)
           (addReceipt "u" "r1" (mkReceipt "note 1" 1) emptyStore) "u"
           eq_refl eq_refl).
  left. reflexivity.
Defined.

(** ** Failure of the refresh *)

(** C3: when the backend call of the batch trigger fails, the transaction
    fails as a whole.  The increment had been put on the transaction and
    is dropped with it, no summary is written, and the store after the
    invocation is the store before it.  The same holds for any failure of
    the transaction, in both revisions that have the trigger. *)
Theorem failed_refresh_rolls_back :
  (forall env fs uid d,
     Z.rem (currentCount fs uid + 1) 5 = 0 ->
     fault env (OpGet (UserRef uid)) = None ->
     fault env (OpQuery uid) = None ->
     fault env (OpGet (MemoryRef uid)) = None ->
     generate env (curatorPromptC fs uid) = inl d ->
     let o := RevC.updateMemoryOnNewReceipt env fs uid in
     result o = inl (ProviderError d) /\
     store o = fs /\
     events o = [TxBegin; TxGet (UserRef uid);
                 TxWrite (SetMerge uid (currentCount fs uid + 1));
                 DbQuery uid 15; DbGet (MemoryRef uid);
                 Generate (curatorPromptC fs uid); TxRollback]) /\
  (forall env fs uid e,
     result (RevC.updateMemoryOnNewReceipt env fs uid) = inl e ->
     store (RevC.updateMemoryOnNewReceipt env fs uid) = fs) /\
  (forall env fs uid e,
     result (RevB.updateMemoryOnNewReceipt env fs uid) = inl e ->
     store (RevB.updateMemoryOnNewReceipt env fs uid) = fs).
Proof.
  split; [|split].
  - intros env fs uid d Hrem Hget Hquery Hmem Hgen. cbn zeta.
    rewrite revC_trigger_run, Hget, Hrem, Hquery, Hmem, Hgen. cbn.
    repeat split.
  - intros env fs uid e. apply runTransaction_failed.
  - intros env fs uid e. apply runTransaction_failed.
Qed.

(** The fifth creation of [veteran] with the backend down: the counter is
    still 4 and there is still no summary. *)
Lemma failed_refresh_rolls_back_witness :
  let o := RevC.updateMemoryOnNewReceipt (backendDown 105) veteran "u" in
  result o = inl (ProviderError "503 Service Unavailable") /\
  store o = veteran /\
  events o = [TxBegin; TxGet (UserRef "u"); TxWrite (SetMerge "u" 5);
              DbQuery "u" 15; DbGet (MemoryRef "u");
              Generate (curatorPromptC veteran "u"); TxRollback].
Proof.
  exact (proj1 failed_refresh_rolls_back (backendDown 105) veteran "u"
           "503 Service Unavailable" eq_refl eq_refl eq_refl eq_refl eq_refl).
Defined.

(** ** The refresh and its transaction *)

Lemma revC_one_transaction (env : Env) (fs : Firestore) (uid : string) :
  oneTransaction (events (RevC.updateMemoryOnNewReceipt env fs uid)) = true.
Proof.
  rewrite revC_trigger_run. unfold aborted.
  destruct (fault env (OpGet (UserRef uid))); [reflexivity|].
  destruct (negb _).
  { destruct (fault env OpCommit); reflexivity. }
  destruct (fault env (OpQuery uid)); [reflexivity|].
  destruct (fault env (OpGet (MemoryRef uid))); [reflexivity|].
  destruct (generate env _); [reflexivity|].
  destruct (fault env OpCommit); reflexivity.
Qed.

(** Revision B never completes a refresh: whatever the store holds and
    the collaborators do, it returns from the early exit or fails, calls
    the backend never and leaves the summaries as they were. *)
Lemma revB_never_refreshes (env : Env) (fs : Firestore) (uid : string) :
  let o := RevB.updateMemoryOnNewReceipt env fs uid in
  result o <> inr RetTransaction /\
  (forall p, ~ In (Generate p) (events o)) /\
  memory (store o) = memory fs.
Proof.
  cbn zeta. rewrite revB_trigger_run. unfold aborted.
  destruct (fault env (OpGet (UserRef uid))); cbn.
  { repeat split; [discriminate|]. intros p [H | [H | [H | []]]]; discriminate. }
  destruct (users fs !! uid) as [doc|]; cbn.
  2: { repeat split; [discriminate|]. intros p [H | [H | [H | []]]]; discriminate. }
  destruct (negb _).
  { destruct (fault env OpCommit); cbn; (repeat split; [discriminate|]);
      intros p [H | [H | [H | [H | []]]]]; discriminate. }
  destruct (fault env (OpQuery uid)); cbn.
  { repeat split; [discriminate|].
    intros p [H | [H | [H | [H | [H | [H | []]]]]]]; discriminate. }
  repeat split; [discriminate|].
  intros p [H | [H | [H | [H | [H | [H | [H | []]]]]]]]; discriminate.
Qed.

(** C5: when the new count is a multiple of 5, the whole refresh runs
    inside the transaction that holds the increment.  In revision C the
    callback, in this order, reads the counter and puts the increment on
    the transaction, queries the last 15 entries, reads the summary (the
    empty string when there is no summary document), calls the backend and
    puts the summary on the same transaction; one commit then applies both
    writes.  The two reads of the refresh are issued on the database
    handle from inside the callback.  Revision B does not get that far:
    with the count going from 4 to 5 it stops at [memoryDoc.exists()]
    after the two reads, the backend is not called and nothing is
    committed; and no invocation of revision B ever completes a
    refresh. *)
Theorem refresh_inside_transaction :
  (forall env fs uid,
     oneTransaction (events (RevC.updateMemoryOnNewReceipt env fs uid)) = true) /\
  (forall env fs uid t,
     Z.rem (currentCount fs uid + 1) 5 = 0 ->
     fault env (OpGet (UserRef uid)) = None ->
     fault env (OpQuery uid) = None ->
     fault env (OpGet (MemoryRef uid)) = None ->
     fault env OpCommit = None ->
     generate env (curatorPromptC fs uid) = inr t ->
     let o := RevC.updateMemoryOnNewReceipt env fs uid in
     let newCount := currentCount fs uid + 1 in
     result o = inr RetTransaction /\
     events o = [TxBegin; TxGet (UserRef uid); TxWrite (SetMerge uid newCount);
                 DbQuery uid 15; DbGet (MemoryRef uid);
                 Generate (RevC.curatorPrompt (currentMemory fs uid)
                             (RevC.recentHistory (queryRecent fs uid 15)));
                 TxWrite (SetSummary uid t); TxCommit] /\
     store o = setSummary uid t (serverTime env)
                 (setCount uid newCount (otherFields fs uid) fs)) /\
  (forall fs uid, memory fs !! uid = None -> currentMemory fs uid = EmptyString) /\
  (let o := RevB.updateMemoryOnNewReceipt (healthy (fun _ => "A summary.") 105)
              veteran "u" in
   result o = inl (TypeError "memoryDoc.exists is not a function") /\
   events o = [TxBegin; TxGet (UserRef "u"); TxWrite (Update "u" 5);
               LogInfo "u" 5; DbQuery "u" 15; DbGet (MemoryRef "u");
               TxRollback] /\
   store o = veteran) /\
  (forall env fs uid,
     result (RevB.updateMemoryOnNewReceipt env fs uid) <> inr RetTransaction /\
     memory (store (RevB.updateMemoryOnNewReceipt env fs uid)) = memory fs).
Proof.
  split; [exact revC_one_transaction | split; [|split; [|split]]].
  - intros env fs uid t Hrem Hget Hquery Hmem Hcommit Hgen. cbn zeta.
    rewrite revC_trigger_run, Hget, Hrem, Hquery, Hmem, Hgen, Hcommit.
    cbn. repeat split.
  - intros fs uid H. unfold currentMemory. now rewrite H.
  - cbn zeta. rewrite revB_trigger_run. repeat split.
  - intros env fs uid.
    destruct (revB_never_refreshes env fs uid) as (H1 & _ & H3). now split.
Qed.

(** The fifth creation of [veteran] against revision C: one transaction
    with the refresh inside, and both writes committed. *)
Lemma refresh_inside_transaction_witness :
  let o := RevC.updateMemoryOnNewReceipt (healthy (fun _ => "A summary.") 105)
             veteran "u" in
  result o = inr RetTransaction /\
  events o = [TxBegin; TxGet (UserRef "u"); TxWrite (SetMerge "u" 5);
              DbQuery "u" 15; DbGet (MemoryRef "u");
              Generate (RevC.curatorPrompt EmptyString
                          (RevC.recentHistory (queryRecent veteran "u" 15)));
              TxWrite (SetSummary "u" "A summary."); TxCommit] /\
  store o = setSummary "u" "A summary." 105 (setCount "u" 5 ∅ veteran).
Proof.
  exact (proj1 (proj2 refresh_inside_transaction)
           (healthy (fun _ => "A summary.") 105) veteran "u" "A summary."
           eq_refl eq_refl eq_refl eq_refl eq_refl eq_refl).
Defined.

(** ** Committing a summary *)

(** C8: committing a summary replaces the Memory Summary document by the
    given text and the server's time of the commit.  It succeeds whether
    or not a document was there, the document it leaves does not depend on
    what was there, nothing else in the store changes, and committing the
    same text again leaves the same [summary] with a [lastUpdated] that is
    not earlier.  A refresh of revision C that commits leaves exactly this
    document, with the text the backend returned. *)
Theorem summary_commit_overwrites :
  (forall now fs uid text,
     exists fs',
       applyWrites now fs [SetSummary uid text] = Some fs' /\
       memory fs' !! uid = Some (mkMemoryDoc text now) /\
       (forall other, other <> uid -> memory fs' !! other = memory fs !! other) /\
       users fs' = users fs /\
       receipts fs' = receipts fs) /\
  (forall now1 now2 fs uid text fs1 fs2,
     now1 <= now2 ->
     applyWrites now1 fs [SetSummary uid text] = Some fs1 ->
     applyWrites now2 fs1 [SetSummary uid text] = Some fs2 ->
     exists d1 d2,
       memory fs1 !! uid = Some d1 /\
       memory fs2 !! uid = Some d2 /\
       summary d1 = text /\
       summary d2 = summary d1 /\
       lastUpdated d1 <= lastUpdated d2) /\
  (forall env fs uid,
     let o := RevC.updateMemoryOnNewReceipt env fs uid in
     result o = inr RetTransaction ->
     exists t,
       generate env (curatorPromptC fs uid) = inr t /\
       memory (store o) !! uid = Some (mkMemoryDoc t (serverTime env))).
Proof.
  split; [|split].
  - intros now fs uid text. eexists. split; [reflexivity|].
    cbn [setSummary memory users receipts]. repeat split.
    + apply lookup_insert_eq.
    + intros other Hne. now apply lookup_insert_ne.
  - intros now1 now2 fs uid text fs1 fs2 Hle H1 H2.
    cbn in H1, H2. injection H1 as <-. injection H2 as <-.
    exists (mkMemoryDoc text now1), (mkMemoryDoc text now2).
    cbn [setSummary memory summary lastUpdated].
    rewrite !lookup_insert_eq. repeat split. exact Hle.
  - intros env fs uid. cbn zeta. rewrite revC_trigger_run. unfold aborted.
    destruct (fault env (OpGet (UserRef uid))); [discriminate|].
    destruct (negb _).
    { destruct (fault env OpCommit); discriminate. }
    destruct (fault env (OpQuery uid)); [discriminate|].
    destruct (fault env (OpGet (MemoryRef uid))); [discriminate|].
    destruct (generate env _) as [d | t]; [discriminate|].
    destruct (fault env OpCommit); [discriminate|].
    intros _. exists t. split; [reflexivity|].
    cbn [store setSummary memory]. apply lookup_insert_eq.
Qed.

(** The same summary committed at times 105 and 110, first on a store
    without a summary document. *)
Lemma summary_commit_overwrites_witness :
  exists d1 d2,
    memory (setSummary "u" "A summary." 105 veteran) !! "u" = Some d1 /\
    memory (setSummary "u" "A summary." 110
              (setSummary "u" "A summary." 105 veteran)) !! "u" = Some d2 /\
    summary d1 = "A summary." /\
    summary d2 = summary d1 /\
    lastUpdated d1 <= lastUpdated d2.
Proof.
  apply (proj1 (proj2 summary_commit_overwrites) 105 110 veteran "u" "A summary.").
  - lia.
  - reflexivity.
  - reflexivity.
Defined.

(** ** Order of the entries in a prompt *)

#[global] Instance newerFirst_total : Total newerFirst.
Proof.
  intros [i a] [j b]. unfold newerFirst. cbn [fst snd].
  destruct (Z.lt_trichotomy (timestamp a) (timestamp b)) as [H | [H | H]].
  - right. left. exact H.
  - destruct (total String.le i j) as [Hij | Hji].
    + right. right. split; [symmetry; exact H | exact Hij].
    + left. right. split; [exact H | exact Hji].
  - left. left. exact H.
Qed.

#[global] Instance newerFirst_trans : Transitive newerFirst.
Proof.
  intros [i a] [j b] [k c]. unfold newerFirst. cbn [fst snd].
  intros [H1 | [H1 L1]] [H2 | [H2 L2]].
  - left. lia.
  - left. lia.
  - left. lia.
  - right. split; [lia | etrans; eassumption].
Qed.

Lemma olderFirst_timestamp (a b : string * Receipt) :
  olderFirst a b -> timestamp (snd a) <= timestamp (snd b).
Proof. unfold olderFirst, newerFirst. lia. Qed.

Lemma StronglySorted_take {A} (R : relation A) (n : nat) (l : list A) :
  StronglySorted R l -> StronglySorted R (take n l).
Proof.
  intros H. rewrite <- (take_drop n l) in H.
  now apply StronglySorted_app_1_l in H.
Qed.

(** Reversing a sorted list sorts it the other way round. *)
Lemma StronglySorted_rev {A} (R : relation A) (l : list A) :
  StronglySorted R l -> StronglySorted (fun a b => R b a) (rev l).
Proof.
  induction 1 as [|x l Hl IH Hx]; [constructor|].
  cbn [rev]. apply StronglySorted_app_2.
  - intros a b Ha Hb. apply list_elem_of_In in Ha, Hb.
    destruct Hb as [<- | []]. apply in_rev in Ha.
    rewrite Forall_forall in Hx. apply Hx. now apply list_elem_of_In.
  - exact IH.
  - repeat constructor.
Qed.

Lemma StronglySorted_weaken {A} (R R' : relation A) (l : list A) :
  (forall a b, R a b -> R' a b) -> StronglySorted R l -> StronglySorted R' l.
Proof.
  intros HR. induction 1 as [|x l Hl IH Hx]; constructor; [exact IH|].
  eapply Forall_impl; [exact Hx | intros b; apply HR].
Qed.

(** On a list without repetitions, the order need only be strengthened
    between different elements. *)
Lemma StronglySorted_strict {A} (R R' : relation A) (l : list A) :
  NoDup l ->
  (forall a b, a ∈ l -> b ∈ l -> a <> b -> R a b -> R' a b) ->
  StronglySorted R l -> StronglySorted R' l.
Proof.
  intros Hnd HR Hs. induction Hs as [|x l Hl IH Hx]; [constructor|].
  apply NoDup_cons in Hnd as [Hnotin Hnd].
  constructor.
  - apply IH; [exact Hnd|].
    intros a b Ha Hb. apply HR; now right.
  - rewrite Forall_forall in Hx |- *. intros y Hy.
    apply HR; [now left | now right | | now apply Hx].
    intros ->. contradiction.
Qed.

Lemma queryRecent_sorted (fs : Firestore) (uid : string) (n : nat) :
  StronglySorted newerFirst (queryRecent fs uid n).
Proof.
  unfold queryRecent. apply StronglySorted_take.
  apply StronglySorted_merge_sort; apply _.
Qed.

Lemma queryRecent_length (fs : Firestore) (uid : string) (n : nat) :
  (length (queryRecent fs uid n) <= n)%nat.
Proof. unfold queryRecent. rewrite length_take. lia. Qed.

Lemma queryRecent_elem (fs : Firestore) (uid : string) (n : nat)
    (i : string) (r : Receipt) :
  (i, r) ∈ queryRecent fs uid n -> collection fs uid !! i = Some r.
Proof.
  unfold queryRecent. intros H.
  apply elem_of_take in H as (k & H & _).
  apply list_elem_of_lookup_2 in H.
  rewrite merge_sort_Permutation in H.
  now apply elem_of_map_to_list in H.
Qed.

Lemma queryRecent_NoDup (fs : Firestore) (uid : string) (n : nat) :
  NoDup (queryRecent fs uid n).
Proof.
  unfold queryRecent. eapply sublist_NoDup; [|apply sublist_take].
  rewrite merge_sort_Permutation. apply NoDup_map_to_list.
Qed.

Lemma queryRecent_strictly_ascending (fs : Firestore) (uid : string) (n : nat) :
  distinctTimestamps fs uid ->
  StronglySorted (fun a b => timestamp (snd a) < timestamp (snd b))
    (rev (queryRecent fs uid n)).
Proof.
  intros Hd.
  apply (StronglySorted_strict olderFirst).
  - apply NoDup_ListNoDup, NoDup_rev, NoDup_ListNoDup, queryRecent_NoDup.
  - intros [i a] [j b] Ha Hb Hne Hold.
    apply list_elem_of_In, in_rev, list_elem_of_In, queryRecent_elem in Ha.
    apply list_elem_of_In, in_rev, list_elem_of_In, queryRecent_elem in Hb.
    destruct Hold as [Hlt | [Heq _]]; [exact Hlt|]. cbn [fst snd] in *.
    exfalso. apply Hne.
    assert (i = j) by (eapply Hd; eauto). subst j.
    rewrite Ha in Hb. now injection Hb as ->.
  - apply (StronglySorted_rev newerFirst), queryRecent_sorted.
Qed.

Lemma contextLines_chronological (snapshot : list (string * Receipt)) :
  RevA.contextLines snapshot = chronologicalLines snapshot /\
  RevB.contextLines snapshot = chronologicalLines snapshot /\
  RevC.contextLines snapshot = chronologicalLines snapshot.
Proof.
  unfold RevA.contextLines, RevB.contextLines, RevC.contextLines,
    chronologicalLines.
  rewrite <- map_rev, map_map. repeat split.
Qed.

Lemma historyLines_chronological (docs : list (string * Receipt)) :
  RevB.historyLines docs = chronologicalLines docs /\
  RevC.historyLines docs = chronologicalLines docs.
Proof.
  unfold RevB.historyLines, RevC.historyLines, chronologicalLines.
  rewrite map_rev. split; reflexivity.
Qed.

(** The only prompt the trigger of revision C sends is [curatorPromptC]. *)
Lemma revC_curator_prompt_sent (env : Env) (fs : Firestore) (uid p : string) :
  In (Generate p) (events (RevC.updateMemoryOnNewReceipt env fs uid)) ->
  p = curatorPromptC fs uid.
Proof.
  rewrite revC_trigger_run. unfold aborted.
  destruct (fault env (OpGet (UserRef uid))); cbn.
  { intros [H | [H | [H | []]]]; discriminate. }
  destruct (negb _).
  { destruct (fault env OpCommit); cbn;
      intros [H | [H | [H | [H | []]]]]; discriminate. }
  destruct (fault env (OpQuery uid)); cbn.
  { intros [H | [H | [H | [H | [H | []]]]]]; discriminate. }
  destruct (fault env (OpGet (MemoryRef uid))); cbn.
  { intros [H | [H | [H | [H | [H | [H | []]]]]]]; discriminate. }
  destruct (generate env _); cbn.
  { intros [H | [H | [H | [H | [H | [H | [H | []]]]]]]];
      try discriminate. now inversion H. }
  destruct (fault env OpCommit); cbn;
    intros [H | [H | [H | [H | [H | [H | [H | [H | []]]]]]]]];
    try discriminate; now inversion H.
Qed.

(** C7: whatever list of entries the store returns, the lines rendered
    into a prompt are those entries in the exact reverse of the order of
    retrieval, in the enhancement and in the curation mode of every
    revision.  The store returns at most 3 (enhancement) or 15 (curation)
    entries, newest first; so the lines are in order of creation, oldest
    first: timestamps never decrease along them, and increase strictly
    when no two entries of the user share a timestamp.  The prompts sent
    to the backend carry exactly these lines, joined by newlines. *)
Theorem prompt_entries_chronological :
  (forall snapshot,
     RevA.contextLines snapshot = chronologicalLines snapshot /\
     RevB.contextLines snapshot = chronologicalLines snapshot /\
     RevC.contextLines snapshot = chronologicalLines snapshot /\
     RevB.historyLines snapshot = chronologicalLines snapshot /\
     RevC.historyLines snapshot = chronologicalLines snapshot) /\
  (forall snapshot,
     StronglySorted newerFirst snapshot ->
     StronglySorted olderFirst (rev snapshot)) /\
  (forall fs uid n,
     StronglySorted newerFirst (queryRecent fs uid n) /\
     (length (queryRecent fs uid n) <= n)%nat /\
     length (chronologicalLines (queryRecent fs uid n))
     = length (queryRecent fs uid n) /\
     StronglySorted (fun a b => timestamp (snd a) <= timestamp (snd b))
       (rev (queryRecent fs uid n))) /\
  (forall fs uid n,
     distinctTimestamps fs uid ->
     StronglySorted (fun a b => timestamp (snd a) < timestamp (snd b))
       (rev (queryRecent fs uid n))) /\
  (forall env fs data uid p,
     (In (Generate p)
         (snd (runCallable (RevA.getEnhancedReceipt env fs data (mkContext (Some uid))))) ->
      p = RevA.prompt (Js.join Js.nl (chronologicalLines (queryRecent fs uid 3)))
            (text data)) /\
     (In (Generate p)
         (snd (runCallable (RevC.getEnhancedReceipt env fs data (mkContext (Some uid))))) ->
      p = RevC.prompt (memoryText fs uid)
            (Js.join Js.nl (chronologicalLines (queryRecent fs uid 3)))
            (text data)) /\
     (In (Generate p) (events (RevC.updateMemoryOnNewReceipt env fs uid)) ->
      p = RevC.curatorPrompt (currentMemory fs uid)
            (Js.join Js.nl (chronologicalLines (queryRecent fs uid 15))))).
Proof.
  split; [|split; [|split; [|split]]].
  - intros snapshot.
    destruct (contextLines_chronological snapshot) as (HA & HB & HC).
    destruct (historyLines_chronological snapshot) as (HB' & HC').
    now repeat split.
  - intros snapshot H. apply (StronglySorted_rev newerFirst), H.
  - intros fs uid n. split; [apply queryRecent_sorted|].
    split; [apply queryRecent_length|]. split.
    + unfold chronologicalLines. now rewrite length_map, length_rev.
    + eapply StronglySorted_weaken; [exact olderFirst_timestamp|].
      apply (StronglySorted_rev newerFirst), queryRecent_sorted.
  - intros fs uid n. apply queryRecent_strictly_ascending.
  - intros env fs data uid p. split; [|split]; intros Hin.
    + apply revA_prompt_sent in Hin. subst p. unfold promptA, RevA.contextText.
      now rewrite (proj1 (contextLines_chronological _)).
    + apply revC_prompt_sent in Hin. subst p. unfold promptC, RevC.contextHistory.
      now rewrite (proj2 (proj2 (contextLines_chronological _))).
    + apply revC_curator_prompt_sent in Hin. subst p.
      unfold curatorPromptC, RevC.recentHistory.
      now rewrite (proj2 (historyLines_chronological _)).
Qed.

Lemma diary_distinctTimestamps : distinctTimestamps diary "u".
Proof.
  intros i j a b Hi Hj Hts.
  change (collection diary "u")
    with (<["r1" := mkReceipt "bought running shoes" 10]>
            (<["r2" := mkReceipt "first 5k" 20]> (∅ : gmap string Receipt)))
    in Hi, Hj.
  apply lookup_insert_Some in Hi as [[<- <-] | [_ Hi]];
    apply lookup_insert_Some in Hj as [[<- <-] | [_ Hj]];
    try reflexivity.
  - apply lookup_insert_Some in Hj as [[<- <-] | [_ Hj]];
      [discriminate | now rewrite lookup_empty in Hj].
  - apply lookup_insert_Some in Hi as [[<- <-] | [_ Hi]];
      [discriminate | now rewrite lookup_empty in Hi].
  - apply lookup_insert_Some in Hi as [[<- <-] | [_ Hi]];
      [|now rewrite lookup_empty in Hi].
    apply lookup_insert_Some in Hj as [[<- <-] | [_ Hj]];
      [reflexivity | now rewrite lookup_empty in Hj].
Qed.

(** The two entries of [diary], as the enhancement presents them: the one
    of time 10 before the one of time 20. *)
Lemma prompt_entries_chronological_witness :
  StronglySorted (fun a b => timestamp (snd a) < timestamp (snd b))
    (rev (queryRecent diary "u" 3)).
Proof.
  exact (proj1 (proj2 (proj2 (proj2 prompt_entries_chronological)))
           diary "u" 3%nat diary_distinctTimestamps).
Defined.

(** ** The model at work *)

(** The two entries of [diary], as the store returns them and as the
    prompts present them. *)
Example diary_query :
  queryRecent diary "u" 3
  = [("r2", mkReceipt "first 5k" 20); ("r1", mkReceipt "bought running shoes" 10)].
Proof. reflexivity. Qed.

Example diary_lines :
  RevC.contextLines (queryRecent diary "u" 3)
  = ["- bought running shoes"; "- first 5k"].
Proof. reflexivity. Qed.

(** Entries with the same timestamp come back in descending order of id,
    and the limit cuts the oldest. *)
Example ties_by_id :
  let fs := addReceipt "u" "b" (mkReceipt "two" 2)
              (addReceipt "u" "a" (mkReceipt "one" 1)
                 (addReceipt "u" "c" (mkReceipt "three" 2) emptyStore)) in
  queryRecent fs "u" 2 = [("c", mkReceipt "three" 2); ("b", mkReceipt "two" 2)].
Proof. reflexivity. Qed.

(** The counter of JavaScript's remainder: a multiple of 5 on either side
    of zero passes the test of the trigger. *)
Example remainder_of_minus_five : negb (Z.rem (-5) 5 =? 0) = false.
Proof. reflexivity. Qed.

(** The curator prompt of revision C for a user without a summary, and
    the enhancement prompt of revision C for the user of [diary]. *)
Example veteran_prompt :
  curatorPromptC veteran "u" =
  "You are an intelligent memory archivist. Your task is to
update the user's long-term memory summary. Here is the current summary and a
list of their recent journal entries. Synthesize the new entries into the
existing summary, creating a new, cohesive narrative. Intelligently integrate
new facts, remove outdated or trivial details, and identify evolving themes.
The final summary should be a concise, high-level overview of the user's
current life, under 2000 characters. Output only the updated summary.

CURRENT SUMMARY:
No summary yet.

NEW ENTRIES:
- note 1
- note 2
- note 3
- note 4
- note 5".
Proof. reflexivity. Qed.

Example diary_prompt :
  promptC diary "u" (Some "went for a run") =
  "You are a personal scribe with a witty, slightly playful,
and very human tone. Your goal is to rephrase the user's raw note into a
beautifully written, insightful journal entry. The final output must be a
single paragraph under 200 characters. Use the following long-term memory
and recent entries for deep context, but don't feel obligated to reference
them directly. Focus on making the new entry shine.

LONG-TERM MEMORY:
Training for a marathon in May.

RECENT ENTRIES:
- bought running shoes
- first 5k

NEW NOTE: " +:+ Js.dquote +:+ "went for a run" +:+ Js.dquote.
Proof. reflexivity. Qed.

(** * Further properties of the code *)

(** ** Editing and deleting an entry *)

Lemma missing_false (rawText : option string) :
  missing rawText = false ->
  exists s, rawText = Some s /\ s <> EmptyString /\ rendered rawText = s.
Proof.
  destruct rawText as [[|c s]|]; try discriminate.
  intros _. exists (String c s). repeat split. discriminate.
Qed.

Lemma collection_updateMessage (uid rid t : string) (fs fs' : Firestore) :
  updateMessage uid rid t fs = Some fs' ->
  exists r,
    collection fs uid !! rid = Some r /\
    collection fs' uid = <[rid := mkReceipt t (timestamp r)]> (collection fs uid) /\
    users fs' = users fs /\
    memory fs' = memory fs /\
    (forall other, other <> uid -> collection fs' other = collection fs other).
Proof.
  unfold updateMessage. destruct (collection fs uid !! rid) as [r|] eqn:Hr; [|discriminate].
  intros [= <-]. exists r. split; [reflexivity|].
  unfold collection at 1. cbn [receipts users memory].
  rewrite lookup_insert_eq. repeat split.
  intros other Hne. unfold collection. cbn [receipts].
  now rewrite lookup_insert_ne.
Qed.

Lemma collection_deleteDoc (uid rid other : string) (fs : Firestore) :
  collection (deleteDoc uid rid fs) other
  = if decide (uid = other) then delete rid (collection fs other)
    else collection fs other.
Proof.
  unfold collection, deleteDoc. cbn [receipts].
  rewrite lookup_alter. destruct (decide (uid = other)) as [-> | Hne]; [|reflexivity].
  destruct (receipts fs !! other); cbn; [reflexivity|].
  symmetry. apply delete_empty.
Qed.

(** The two callables raise the same checks in the same order: a call
    without a caller identity fails [unauthenticated] whatever its data; a
    call with an identity fails [invalid-argument] exactly when a required
    field is missing or empty; and in both cases, as whenever the call
    fails, the store is left as it was. *)
Theorem edit_delete_checks :
  (forall rejects fs data,
     editReceipt rejects fs data (mkContext None)
     = (inl (HttpsError unauthenticated "Auth required."), fs)) /\
  (forall rejects fs data,
     deleteReceipt rejects fs data (mkContext None)
     = (inl (HttpsError unauthenticated "Auth required."), fs)) /\
  (forall rejects fs data uid,
     fst (editReceipt rejects fs data (mkContext (Some uid)))
     = inl (HttpsError invalid_argument "ID/Text needed.")
     <-> (missing (editId data) = true \/ missing (newText data) = true)) /\
  (forall rejects fs data uid,
     fst (deleteReceipt rejects fs data (mkContext (Some uid)))
     = inl (HttpsError invalid_argument "ID needed.")
     <-> missing (deleteId data) = true) /\
  (forall rejects fs data context e,
     fst (editReceipt rejects fs data context) = inl e ->
     snd (editReceipt rejects fs data context) = fs) /\
  (forall rejects fs data context e,
     fst (deleteReceipt rejects fs data context) = inl e ->
     snd (deleteReceipt rejects fs data context) = fs).
Proof.
  split; [reflexivity | split; [reflexivity |]].
  split; [|split; [|split]].
  - intros rejects fs data uid. unfold editReceipt. cbn [auth]. split.
    + destruct (missing (editId data)), (missing (newText data)); cbn; auto.
      destruct (rejects _); [discriminate|].
      destruct (updateMessage _ _ _ _); discriminate.
    + intros [-> | ->]; [reflexivity|]. now rewrite orb_true_r.
  - intros rejects fs data uid. unfold deleteReceipt. cbn [auth]. split.
    + destruct (missing (deleteId data)); [reflexivity|].
      destruct (rejects _); discriminate.
    + now intros ->.
  - intros rejects fs data context e. unfold editReceipt.
    destruct (auth context); [|reflexivity].
    destruct (_ || _); [reflexivity|].
    destruct (rejects _); [reflexivity|].
    destruct (updateMessage _ _ _ _); [discriminate | reflexivity].
  - intros rejects fs data context e. unfold deleteReceipt.
    destruct (auth context); [|reflexivity].
    destruct (missing _); [reflexivity|].
    destruct (rejects _); [reflexivity | discriminate].
Qed.

(** The checks at work: an edit of user "u" without a new text. *)
Lemma edit_delete_checks_witness :
  snd (editReceipt accepting diary (mkEditData (Some "r1") None) (mkContext (Some "u")))
  = diary.
Proof.
  apply (proj1 (proj2 (proj2 (proj2 (proj2 edit_delete_checks)))) accepting diary
           (mkEditData (Some "r1") None) (mkContext (Some "u"))
           (HttpsError invalid_argument "ID/Text needed.")).
  reflexivity.
Defined.

(** An edit of an entry that exists replaces its [message] by the new text
    and keeps its [timestamp]; every other entry of the caller, every
    other user's entries and all user records and summaries are as they
    were, and the caller gets the success reply. *)
Theorem edit_overwrites_message (rejects : DocWrite -> option string)
    (fs : Firestore) (uid rid t : string) (r : Receipt) :
  rid <> EmptyString -> t <> EmptyString ->
  rejects (DocUpdate uid rid) = None ->
  collection fs uid !! rid = Some r ->
  let out := editReceipt rejects fs (mkEditData (Some rid) (Some t))
               (mkContext (Some uid)) in
  fst out = inr (mkReply "success" "Receipt updated.") /\
  collection (snd out) uid !! rid = Some (mkReceipt t (timestamp r)) /\
  (forall other, other <> rid ->
     collection (snd out) uid !! other = collection fs uid !! other) /\
  (forall user, user <> uid -> collection (snd out) user = collection fs user) /\
  users (snd out) = users fs /\
  memory (snd out) = memory fs.
Proof.
  intros Hrid Ht Hok Hr. cbn zeta. unfold editReceipt. cbn [auth editId newText].
  destruct rid as [|c rid]; [congruence|]. destruct t as [|c' t]; [congruence|].
  unfold rendered. cbn. rewrite Hok.
  destruct (updateMessage _ _ _ _) as [fs'|] eqn:Hup.
  - apply collection_updateMessage in Hup as (r' & Hr' & Hc & Hu & Hm & Hothers).
    rewrite Hr in Hr'. injection Hr' as <-. cbn [fst snd]. rewrite Hc.
    repeat split; auto.
    + apply lookup_insert_eq.
    + intros other Hne. now apply lookup_insert_ne.
  - unfold updateMessage in Hup. now rewrite Hr in Hup.
Qed.

Lemma edit_overwrites_message_witness :
  collection
    (snd (editReceipt accepting diary (mkEditData (Some "r2") (Some "first 10k"))
            (mkContext (Some "u")))) "u" !! "r2"
  = Some (mkReceipt "first 10k" 20).
Proof.
  apply (edit_overwrites_message accepting diary "u" "r2" "first 10k"
           (mkReceipt "first 5k" 20)); try discriminate; reflexivity.
Defined.

(** An edit never creates and never removes an entry: the ids of every
    user's entries are the same before and after any call.  In particular
    the edit of an entry that does not exist is rejected by the store with
    NOT_FOUND, which the handler lets through, and writes nothing. *)
Theorem edit_is_no_upsert :
  (forall rejects fs data context user,
     dom (collection (snd (editReceipt rejects fs data context)) user)
     = dom (collection fs user)) /\
  (forall fs uid rid t,
     rid <> EmptyString -> t <> EmptyString ->
     collection fs uid !! rid = None ->
     editReceipt accepting fs (mkEditData (Some rid) (Some t)) (mkContext (Some uid))
     = (inl (StoreError "NOT_FOUND"), fs)).
Proof.
  split.
  - intros rejects fs data context user. unfold editReceipt.
    destruct (auth context) as [uid|]; [|reflexivity].
    destruct (_ || _); [reflexivity|].
    destruct (rejects _); [reflexivity|].
    destruct (updateMessage _ _ _ _) as [fs'|] eqn:Hup; [|reflexivity].
    apply collection_updateMessage in Hup as (r & Hr & Hc & _ & _ & Hothers).
    cbn [snd]. destruct (decide (user = uid)) as [-> | Hne].
    + rewrite Hc, dom_insert_L. apply elem_of_dom_2 in Hr.
      apply set_eq. intros x. rewrite elem_of_union, elem_of_singleton.
      split; [intros [-> | H]; assumption | now right].
    + now rewrite Hothers.
  - intros fs uid rid t Hrid Ht Hnone. unfold editReceipt, accepting.
    cbn [auth editId newText].
    destruct rid as [|c rid]; [congruence|]. destruct t as [|c' t]; [congruence|].
    unfold rendered. cbn.
    unfold updateMessage. now rewrite Hnone.
Qed.

Lemma edit_is_no_upsert_witness :
  editReceipt accepting diary (mkEditData (Some "r9") (Some "a new entry"))
    (mkContext (Some "u"))
  = (inl (StoreError "NOT_FOUND"), diary).
Proof.
  apply (proj2 edit_is_no_upsert diary "u" "r9" "a new entry");
    try discriminate; reflexivity.
Defined.

(** A delete removes the entry and nothing else, and it is idempotent: it
    succeeds whether or not the entry exists, a second delete of the same
    id succeeds too and changes nothing more, and the delete of an id that
    names no entry leaves the caller's entries as they were.  The user
    records, among them [receiptCount], and the summaries are never
    touched: the counter counts creations, not the entries that remain. *)
Theorem delete_removes_entry (rejects : DocWrite -> option string)
    (fs : Firestore) (uid rid : string) :
  rid <> EmptyString ->
  rejects (DocDelete uid rid) = None ->
  let call := fun store =>
    deleteReceipt rejects store (mkDeleteData (Some rid)) (mkContext (Some uid)) in
  fst (call fs) = inr (mkReply "success" "Receipt deleted.") /\
  collection (snd (call fs)) uid = delete rid (collection fs uid) /\
  (forall user, user <> uid -> collection (snd (call fs)) user = collection fs user) /\
  users (snd (call fs)) = users fs /\
  memory (snd (call fs)) = memory fs /\
  currentCount (snd (call fs)) uid = currentCount fs uid /\
  call (snd (call fs)) = call fs /\
  (collection fs uid !! rid = None -> collection (snd (call fs)) uid = collection fs uid).
Proof.
  intros Hrid Hok. cbn beta zeta.
  assert (Hcall : forall store,
             deleteReceipt rejects store (mkDeleteData (Some rid)) (mkContext (Some uid))
             = (inr (mkReply "success" "Receipt deleted."), deleteDoc uid rid store)).
  { intros store. unfold deleteReceipt. cbn [auth deleteId].
    destruct rid as [|c rid]; [congruence|]. unfold rendered. cbn. now rewrite Hok. }
  rewrite !Hcall. cbn [fst snd].
  assert (Hc : collection (deleteDoc uid rid fs) uid = delete rid (collection fs uid)).
  { rewrite collection_deleteDoc. now rewrite decide_True. }
  repeat split.
  - exact Hc.
  - intros user Hne. rewrite collection_deleteDoc. now rewrite decide_False.
  - f_equal. unfold deleteDoc. cbn [users memory receipts]. f_equal.
    apply map_eq. intros user.
    destruct (decide (uid = user)) as [<- | Hne].
    + rewrite !lookup_alter_eq.
      destruct (receipts fs !! uid); cbn; [|reflexivity].
      now rewrite delete_delete_eq.
    + now rewrite !lookup_alter_ne.
  - intros Hnone. rewrite Hc. now apply delete_id.
Qed.

Lemma delete_removes_entry_witness :
  collection
    (snd (deleteReceipt accepting diary (mkDeleteData (Some "r1"))
            (mkContext (Some "u")))) "u"
  = delete "r1" (collection diary "u").
Proof.
  apply (delete_removes_entry accepting diary "u" "r1"); [discriminate | reflexivity].
Defined.

(** Ownership: whatever the data of the call, an edit or a delete changes
    nothing but entries of the caller.  The entries of every other user
    stay as they were, also those that carry the same id, and no user
    record and no summary changes. *)
Theorem edit_delete_own_entries_only :
  forall rejects fs context user,
    auth context <> Some user ->
    (forall data,
       let fs' := snd (editReceipt rejects fs data context) in
       collection fs' user = collection fs user /\
       users fs' = users fs /\ memory fs' = memory fs) /\
    (forall data,
       let fs' := snd (deleteReceipt rejects fs data context) in
       collection fs' user = collection fs user /\
       users fs' = users fs /\ memory fs' = memory fs).
Proof.
  intros rejects fs context user Hother. split; intros data; cbn zeta.
  - unfold editReceipt. destruct (auth context) as [uid|]; [|now repeat split].
    destruct (_ || _); [now repeat split|].
    destruct (rejects _); [now repeat split|].
    destruct (updateMessage _ _ _ _) as [fs'|] eqn:Hup; [|now repeat split].
    apply collection_updateMessage in Hup as (r & _ & _ & Hu & Hm & Hothers).
    cbn [snd]. repeat split; [|exact Hu | exact Hm].
    apply Hothers. congruence.
  - unfold deleteReceipt. destruct (auth context) as [uid|]; [|now repeat split].
    destruct (missing _); [now repeat split|].
    destruct (rejects _); [now repeat split|].
    cbn [snd]. repeat split.
    rewrite collection_deleteDoc. rewrite decide_False; [reflexivity | congruence].
Qed.

Lemma edit_delete_own_entries_only_witness :
  collection
    (snd (deleteReceipt accepting neighbours (mkDeleteData (Some "r1"))
            (mkContext (Some "u")))) "v"
  = collection neighbours "v".
Proof.
  apply (proj2 (edit_delete_own_entries_only accepting neighbours
                  (mkContext (Some "u")) "v" ltac:(discriminate))
           (mkDeleteData (Some "r1"))).
Defined.

(** ** An edit and the order of the entries *)

Lemma withMessage_fst (rid t : string) (d : string * Receipt) :
  fst (withMessage rid t d) = fst d.
Proof. unfold withMessage. now destruct (decide _). Qed.

Lemma withMessage_timestamp (rid t : string) (d : string * Receipt) :
  timestamp (snd (withMessage rid t d)) = timestamp (snd d).
Proof. unfold withMessage. now destruct (decide _). Qed.

Lemma newerFirst_withMessage (rid t : string) (a b : string * Receipt) :
  newerFirst a b -> newerFirst (withMessage rid t a) (withMessage rid t b).
Proof.
  unfold newerFirst. now rewrite !withMessage_fst, !withMessage_timestamp.
Qed.

(** The documents of a collection after an edit of one of them. *)
Lemma map_to_list_edit (c : gmap string Receipt) (rid t : string) (r : Receipt) :
  c !! rid = Some r ->
  map_to_list (<[rid := mkReceipt t (timestamp r)]> c)
  ≡ₚ withMessage rid t <$> map_to_list c.
Proof.
  intros Hr. apply NoDup_Permutation.
  - apply NoDup_map_to_list.
  - apply (NoDup_fmap_1 fst). rewrite <- list_fmap_compose.
    rewrite (list_fmap_ext (fst ∘ withMessage rid t) fst (map_to_list c));
      [apply NoDup_fst_map_to_list|].
    intros i d _. apply withMessage_fst.
  - intros [i x]. rewrite elem_of_map_to_list, list_elem_of_fmap. split.
    + intros Hix. destruct (decide (i = rid)) as [-> | Hne].
      * rewrite lookup_insert_eq in Hix. injection Hix as <-.
        exists (rid, r). split; [|now apply elem_of_map_to_list].
        unfold withMessage. cbn [fst snd]. now rewrite decide_True.
      * rewrite lookup_insert_ne in Hix by congruence.
        exists (i, x). split; [|now apply elem_of_map_to_list].
        unfold withMessage. cbn [fst snd]. now rewrite decide_False.
    + intros ([j y] & Heq & Hjy). apply elem_of_map_to_list in Hjy.
      unfold withMessage in Heq. cbn [fst snd] in Heq.
      destruct (decide (j = rid)) as [-> | Hne].
      * rewrite Hr in Hjy. injection Hjy as <-. injection Heq as -> ->.
        apply lookup_insert_eq.
      * injection Heq as -> ->. now rewrite lookup_insert_ne by congruence.
Qed.

(** Two entries of one collection that precede each other are one entry. *)
Lemma newerFirst_antisym (c : gmap string Receipt) (a b : string * Receipt) :
  a ∈ map_to_list c -> b ∈ map_to_list c ->
  newerFirst a b -> newerFirst b a -> a = b.
Proof.
  destruct a as [i x], b as [j y]. rewrite !elem_of_map_to_list.
  unfold newerFirst. cbn [fst snd]. intros Hi Hj [H1 | [H1 L1]] [H2 | [H2 L2]]; try lia.
  assert (i = j) by (apply (anti_symm String.le); assumption). subst j.
  rewrite Hi in Hj. now injection Hj as ->.
Qed.

(** An edit does not move an entry: the store returns the entries of the
    caller in the same order as before the edit, with the new text in the
    place of the old one, so the recent entries of a prompt keep their
    places. *)
Theorem edit_keeps_order (rejects : DocWrite -> option string) (fs : Firestore)
    (uid rid t : string) (n : nat) :
  rid <> EmptyString -> t <> EmptyString ->
  rejects (DocUpdate uid rid) = None ->
  is_Some (collection fs uid !! rid) ->
  let fs' := snd (editReceipt rejects fs (mkEditData (Some rid) (Some t))
                    (mkContext (Some uid))) in
  queryRecent fs' uid n = map (withMessage rid t) (queryRecent fs uid n) /\
  RevC.contextLines (queryRecent fs' uid n)
  = map (fun d => entryLine (snd (withMessage rid t d))) (rev (queryRecent fs uid n)).
Proof.
  intros Hrid Ht Hok [r Hr]. cbn zeta.
  assert (Hq : queryRecent
                 (snd (editReceipt rejects fs (mkEditData (Some rid) (Some t))
                         (mkContext (Some uid)))) uid n
               = map (withMessage rid t) (queryRecent fs uid n)).
  { unfold editReceipt. cbn [auth editId newText].
    destruct rid as [|c rid]; [congruence|]. destruct t as [|c' t]; [congruence|].
    unfold rendered. cbn. rewrite Hok.
    destruct (updateMessage _ _ _ _) as [fs'|] eqn:Hup.
    2: { unfold updateMessage in Hup. now rewrite Hr in Hup. }
    apply collection_updateMessage in Hup as (r' & Hr' & Hc & _).
    rewrite Hr in Hr'. injection Hr' as <-. cbn [snd].
    unfold queryRecent. rewrite Hc.
    change (map ?f ?l) with (f <$> l). rewrite fmap_take. f_equal.
    pose proof (map_to_list_edit (collection fs uid) (String c rid) (String c' t) r Hr)
      as Hperm.
    apply (StronglySorted_unique_strong newerFirst).
    - intros a b Ha Hb. rewrite merge_sort_Permutation in Ha, Hb.
      rewrite <- Hperm in Hb.
      exact (newerFirst_antisym _ a b Ha Hb).
    - apply StronglySorted_merge_sort; apply _.
    - apply (StronglySorted_fmap _ newerFirst newerFirst).
      + intros a b. apply newerFirst_withMessage.
      + apply StronglySorted_merge_sort; apply _.
    - rewrite !merge_sort_Permutation. exact Hperm. }
  split; [exact Hq|].
  rewrite Hq. unfold RevC.contextLines.
  now rewrite <- !map_rev, !map_map.
Qed.

Lemma edit_keeps_order_witness :
  queryRecent
    (snd (editReceipt accepting diary (mkEditData (Some "r1") (Some "bought trail shoes"))
            (mkContext (Some "u")))) "u" 3
  = map (withMessage "r1" "bought trail shoes") (queryRecent diary "u" 3).
Proof.
  apply (edit_keeps_order accepting diary "u" "r1" "bought trail shoes" 3);
    try discriminate; [reflexivity | eexists; reflexivity].
Defined.

(** ** What the batch trigger leaves alone *)

Lemma touchesOnly_refl (uid : string) (fs : Firestore) : touchesOnly uid fs fs.
Proof. repeat split. Qed.

Lemma touchesOnly_setCount (uid : string) (n : Z) (fs : Firestore) :
  touchesOnly uid fs (setCount uid n (otherFields fs uid) fs).
Proof.
  unfold touchesOnly, setCount, otherFields. cbn [users memory receipts].
  rewrite lookup_insert_eq. repeat split.
  now apply lookup_insert_ne.
Qed.

Lemma touchesOnly_setSummary (uid t : string) (now : Z) (fs fs' : Firestore) :
  touchesOnly uid fs fs' -> touchesOnly uid fs (setSummary uid t now fs').
Proof.
  intros (Hr & Ho & Hf). unfold touchesOnly, setSummary, otherFields in *.
  cbn [users memory receipts]. repeat split; try assumption.
  - now apply Ho.
  - rewrite lookup_insert_ne by congruence. now apply Ho.
Qed.

Lemma trigger_frame_receipts (env : Env) (fs : Firestore) (uid : string) :
  receipts (store (RevC.updateMemoryOnNewReceipt env fs uid)) = receipts fs.
Proof.
  rewrite revC_trigger_run. unfold aborted.
  destruct (fault env (OpGet (UserRef uid))); [reflexivity|].
  destruct (negb _).
  { destruct (fault env OpCommit); reflexivity. }
  destruct (fault env (OpQuery uid)); [reflexivity|].
  destruct (fault env (OpGet (MemoryRef uid))); [reflexivity|].
  destruct (generate env _); [reflexivity|].
  destruct (fault env OpCommit); reflexivity.
Qed.

(** An invocation of the trigger for a user changes at most that user's
    record and summary.  No entry is written, no other user's record or
    summary changes, and the write-back of the counter keeps the other
    fields of the record; this holds whether the invocation commits or
    fails, in both revisions. *)
Theorem trigger_touches_own_documents_only (env : Env) (fs : Firestore) (uid : string) :
  touchesOnly uid fs (store (RevC.updateMemoryOnNewReceipt env fs uid)) /\
  touchesOnly uid fs (store (RevB.updateMemoryOnNewReceipt env fs uid)).
Proof.
  split.
  - rewrite revC_trigger_run. unfold aborted.
    destruct (fault env (OpGet (UserRef uid))); [apply touchesOnly_refl|].
    destruct (negb _).
    { destruct (fault env OpCommit);
        [apply touchesOnly_refl | apply touchesOnly_setCount]. }
    destruct (fault env (OpQuery uid)); [apply touchesOnly_refl|].
    destruct (fault env (OpGet (MemoryRef uid))); [apply touchesOnly_refl|].
    destruct (generate env _); [apply touchesOnly_refl|].
    destruct (fault env OpCommit); [apply touchesOnly_refl|].
    apply touchesOnly_setSummary, touchesOnly_setCount.
  - rewrite revB_trigger_run. unfold aborted.
    destruct (fault env (OpGet (UserRef uid))); [apply touchesOnly_refl|].
    destruct (users fs !! uid) as [doc|] eqn:Hdoc; [|apply touchesOnly_refl].
    cbn zeta. destruct (negb _).
    { destruct (fault env OpCommit); [apply touchesOnly_refl|].
      replace (profile doc) with (otherFields fs uid)
        by (unfold otherFields; now rewrite Hdoc).
      apply touchesOnly_setCount. }
    destruct (fault env (OpQuery uid)); apply touchesOnly_refl.
Qed.

(** ** The counter and the committed transactions *)

Lemma commits_app (a b : list Event) :
  commits (a ++ b) = (commits a + commits b)%nat.
Proof. unfold commits. now rewrite filter_app, length_app. Qed.

Ltac counts_zero :=
  cbn [store events]; replace (commits _) with 0%nat by reflexivity; lia.

Lemma revC_counts_commit (env : Env) (fs : Firestore) (uid : string) :
  let o := RevC.updateMemoryOnNewReceipt env fs uid in
  currentCount (store o) uid = currentCount fs uid + Z.of_nat (commits (events o)) /\
  (commits (events o) = 1%nat /\ (exists v, result o = inr v) \/
   commits (events o) = 0%nat /\ (exists e, result o = inl e) /\ store o = fs).
Proof.
  cbn zeta. rewrite revC_trigger_run. unfold aborted.
  destruct (fault env (OpGet (UserRef uid))).
  { split; [counts_zero | right; repeat split; eauto]. }
  destruct (negb _).
  { destruct (fault env OpCommit).
    - split; [counts_zero | right; repeat split; eauto].
    - cbn [store events result]. rewrite currentCount_setCount.
      split; [reflexivity | left; eauto]. }
  destruct (fault env (OpQuery uid)).
  { split; [counts_zero | right; repeat split; eauto]. }
  destruct (fault env (OpGet (MemoryRef uid))).
  { split; [counts_zero | right; repeat split; eauto]. }
  destruct (generate env _).
  { split; [counts_zero | right; repeat split; eauto]. }
  destruct (fault env OpCommit).
  { split; [counts_zero | right; repeat split; eauto]. }
  cbn [store events result]. rewrite currentCount_setSummary, currentCount_setCount.
  split; [reflexivity | left; eauto].
Qed.

Lemma revB_counts_commit (env : Env) (fs : Firestore) (uid : string) :
  let o := RevB.updateMemoryOnNewReceipt env fs uid in
  currentCount (store o) uid = currentCount fs uid + Z.of_nat (commits (events o)) /\
  (commits (events o) = 1%nat /\ (exists v, result o = inr v) \/
   commits (events o) = 0%nat /\ (exists e, result o = inl e) /\ store o = fs).
Proof.
  cbn zeta. rewrite revB_trigger_run. unfold aborted.
  destruct (fault env (OpGet (UserRef uid))).
  { split; [counts_zero | right; repeat split; eauto]. }
  destruct (users fs !! uid) as [doc|] eqn:Hdoc.
  2: { split; [counts_zero | right; repeat split; eauto]. }
  cbn zeta. destruct (negb _).
  { destruct (fault env OpCommit).
    - split; [counts_zero | right; repeat split; eauto].
    - cbn [store events result]. rewrite currentCount_setCount.
      unfold currentCount. rewrite Hdoc.
      split; [reflexivity | left; eauto]. }
  destruct (fault env (OpQuery uid)).
  { split; [counts_zero | right; repeat split; eauto]. }
  split; [counts_zero | right; repeat split; eauto].
Qed.

(** Whatever fails and whenever, [receiptCount] is the number of
    invocations that committed: one invocation adds 1 when its transaction
    commits and 0 when it fails, and over any sequence of creations, with
    any failures of the store and the backend among them, the counter
    grows by exactly the number of committed transactions.  It is never
    decreased and never advanced by a failed invocation. *)
Theorem counter_counts_commits :
  (forall env fs uid,
     let o := RevC.updateMemoryOnNewReceipt env fs uid in
     currentCount (store o) uid = currentCount fs uid + Z.of_nat (commits (events o)) /\
     (commits (events o) = 1%nat /\ (exists v, result o = inr v) \/
      commits (events o) = 0%nat /\ (exists e, result o = inl e) /\ store o = fs)) /\
  (forall uid cs fs,
     let run := createAll RevC.updateMemoryOnNewReceipt uid cs fs in
     currentCount (fst run) uid = currentCount fs uid + Z.of_nat (commits (snd run))) /\
  (forall uid cs fs,
     let run := createAll RevB.updateMemoryOnNewReceipt uid cs fs in
     currentCount (fst run) uid = currentCount fs uid + Z.of_nat (commits (snd run))).
Proof.
  split; [exact revC_counts_commit | split].
  - intros uid cs. induction cs as [|c cs IH]; intros fs; cbn zeta.
    + cbn. lia.
    + cbn [createAll]. unfold onCreate.
      destruct (revC_counts_commit (creationEnv c)
                  (addReceipt uid (receiptId c) (entry c) fs) uid) as (Hc & _).
      cbn zeta in Hc.
      specialize (IH (store (RevC.updateMemoryOnNewReceipt (creationEnv c)
                               (addReceipt uid (receiptId c) (entry c) fs) uid))).
      cbn zeta in IH. destruct (createAll _ _ cs _) as [fs' tr]. cbn [fst snd] in *.
      rewrite commits_app, Nat2Z.inj_add, IH, Hc.
      change (currentCount (addReceipt uid (receiptId c) (entry c) fs) uid)
        with (currentCount fs uid). lia.
  - intros uid cs. induction cs as [|c cs IH]; intros fs; cbn zeta.
    + cbn. lia.
    + cbn [createAll]. unfold onCreate.
      destruct (revB_counts_commit (creationEnv c)
                  (addReceipt uid (receiptId c) (entry c) fs) uid) as (Hc & _).
      cbn zeta in Hc.
      specialize (IH (store (RevB.updateMemoryOnNewReceipt (creationEnv c)
                               (addReceipt uid (receiptId c) (entry c) fs) uid))).
      cbn zeta in IH. destruct (createAll _ _ cs _) as [fs' tr]. cbn [fst snd] in *.
      rewrite commits_app, Nat2Z.inj_add, IH, Hc.
      change (currentCount (addReceipt uid (receiptId c) (entry c) fs) uid)
        with (currentCount fs uid). lia.
Qed.

(** ** After a failed refresh *)

(** A refresh that fails is taken up again by the next creation.  When the
    backend is down for the creation that would bring the counter to a
    multiple of 5, the counter stays where it was; the next creation
    therefore computes the same new count, enters the refresh path again
    and, with a backend that works, commits the counter and a summary.
    The batch is late by one entry, not lost. *)
Theorem failed_refresh_is_retried (uid : string) (fs : Firestore)
    (rid1 rid2 : string) (r1 r2 : Receipt) (g : string -> string) (now1 now2 : Z) :
  Z.rem (currentCount fs uid + 1) 5 = 0 ->
  let run := createAll RevC.updateMemoryOnNewReceipt uid
               [failingCreation rid1 r1 now1; healthyCreation (rid2, r2, g, now2)]
               fs in
  let fs2 := addReceipt uid rid2 r2 (addReceipt uid rid1 r1 fs) in
  currentCount (fst run) uid = currentCount fs uid + 1 /\
  memory (fst run) !! uid = Some (mkMemoryDoc (g (curatorPromptC fs2 uid)) now2) /\
  refreshRuns (snd run) = 2%nat /\
  commits (snd run) = 1%nat.
Proof.
  intros Hrem. cbn zeta. cbn [createAll]. unfold onCreate, failingCreation.
  cbn [healthyCreation creationEnv receiptId entry].
  set (fs1 := addReceipt uid rid1 r1 fs).
  assert (H1 : RevC.updateMemoryOnNewReceipt (backendDown now1) fs1 uid
               = aborted (ProviderError "503 Service Unavailable") fs1
                   [TxBegin; TxGet (UserRef uid);
                    TxWrite (SetMerge uid (currentCount fs uid + 1));
                    DbQuery uid 15; DbGet (MemoryRef uid);
                    Generate (curatorPromptC fs1 uid)]).
  { rewrite revC_trigger_run. cbn [fault generate backendDown].
    change (currentCount fs1 uid) with (currentCount fs uid).
    now rewrite Hrem. }
  rewrite H1. cbn [store aborted events].
  set (fs2 := addReceipt uid rid2 r2 fs1).
  rewrite revC_trigger_run. cbn [fault generate healthy serverTime].
  change (currentCount fs2 uid) with (currentCount fs uid).
  rewrite Hrem. cbn [negb Z.eqb fst snd store events].
  rewrite currentCount_setSummary, currentCount_setCount.
  repeat split. cbn [setSummary memory]. apply lookup_insert_eq.
Qed.

Lemma failed_refresh_is_retried_witness :
  let run := createAll RevC.updateMemoryOnNewReceipt "u"
               [failingCreation "r5" (mkReceipt "note 5" 5) 105;
                healthyCreation ("r6", mkReceipt "note 6" 6, fun _ => "A summary.", 106)]
               veteran in
  currentCount (fst run) "u" = 5 /\
  memory (fst run) !! "u" = Some (mkMemoryDoc "A summary." 106) /\
  refreshRuns (snd run) = 2%nat /\
  commits (snd run) = 1%nat.
Proof.
  exact (failed_refresh_is_retried "u" veteran "r5" "r6" (mkReceipt "note 5" 5)
           (mkReceipt "note 6" 6) (fun _ => "A summary.") 105 106 eq_refl).
Defined.

(** ** When the summary appears *)

Lemma multiple_of_five_from (c : Z) :
  0 <= c -> Z.rem (c + 1) 5 = 0 -> 5 <= c + 1.
Proof.
  intros Hc H. rewrite Z.rem_mod_nonneg in H by lia.
  pose proof (Z.div_mod (c + 1) 5 ltac:(lia)). lia.
Qed.

Lemma summary_lifecycle_step (uid : string) (g : string -> string) (now : Z)
    (fs : Firestore) :
  let c := currentCount fs uid in
  let o := RevC.updateMemoryOnNewReceipt (healthy g now) fs uid in
  0 <= c ->
  (c < 5 -> memory fs !! uid = None) ->
  (5 <= c -> is_Some (memory fs !! uid)) ->
  currentCount (store o) uid = c + 1 /\
  (c + 1 < 5 -> memory (store o) !! uid = None) /\
  (5 <= c + 1 -> is_Some (memory (store o) !! uid)).
Proof.
  cbn zeta. intros Hc Hlow Hhigh. rewrite revC_trigger_run.
  cbn [fault healthy generate serverTime].
  destruct (Z.eqb_spec (Z.rem (currentCount fs uid + 1) 5) 0) as [E | E]; cbn [negb].
  - cbn [store]. rewrite currentCount_setSummary, currentCount_setCount.
    pose proof (multiple_of_five_from _ Hc E).
    repeat split; [lia|]. intros _. cbn [setSummary memory].
    rewrite lookup_insert_eq. eauto.
  - cbn [store]. rewrite currentCount_setCount. cbn [setCount memory].
    repeat split.
    + intros H. apply Hlow. lia.
    + intros H. apply Hhigh.
      assert (currentCount fs uid + 1 <> 5) by (intros E5; apply E; now rewrite E5).
      lia.
Qed.

Lemma summary_lifecycle (uid : string)
    (xs : list (string * Receipt * (string -> string) * Z)) :
  forall fs,
    let c := currentCount fs uid in
    let fs' := fst (createAll RevC.updateMemoryOnNewReceipt uid
                      (map healthyCreation xs) fs) in
    0 <= c ->
    (c < 5 -> memory fs !! uid = None) ->
    (5 <= c -> is_Some (memory fs !! uid)) ->
    let c' := c + Z.of_nat (length xs) in
    (c' < 5 -> memory fs' !! uid = None) /\
    (5 <= c' -> is_Some (memory fs' !! uid)).
Proof.
  induction xs as [|[[[rid r] g] now] xs IH]; intros fs; cbn zeta; intros Hc Hlow Hhigh.
  - cbn [length map createAll fst]. rewrite Z.add_0_r. now split.
  - cbn [map healthyCreation createAll]. unfold onCreate.
    cbn [creationEnv receiptId entry].
    set (fs1 := addReceipt uid rid r fs).
    destruct (summary_lifecycle_step uid g now fs1 Hc Hlow Hhigh) as (Hc1 & Hlow1 & Hhigh1).
    set (o := RevC.updateMemoryOnNewReceipt (healthy g now) fs1 uid) in *.
    change (currentCount fs1 uid) with (currentCount fs uid) in Hc1, Hlow1, Hhigh1.
    specialize (IH (store o)). cbn zeta in IH. rewrite Hc1 in IH.
    specialize (IH ltac:(lia) Hlow1 Hhigh1).
    destruct (createAll _ _ _ (store o)) as [fs' tr]. cbn [fst] in *.
    rewrite length_cons, Nat2Z.inj_succ.
    replace (currentCount fs uid + Z.succ (Z.of_nat (length xs)))
      with (currentCount fs uid + 1 + Z.of_nat (length xs)) by lia.
    exact IH.
Qed.

(** The summary of a new user is absent until the fifth creation and
    present from then on: while store and backend work, fewer than five
    creations leave no summary document, and five or more leave one. *)
Theorem summary_appears_with_fifth_entry (uid : string)
    (xs : list (string * Receipt * (string -> string) * Z)) (fs : Firestore) :
  currentCount fs uid = 0 ->
  memory fs !! uid = None ->
  let fs' := fst (createAll RevC.updateMemoryOnNewReceipt uid
                    (map healthyCreation xs) fs) in
  ((length xs < 5)%nat -> memory fs' !! uid = None) /\
  ((5 <= length xs)%nat -> is_Some (memory fs' !! uid)).
Proof.
  intros Hzero Hnone. cbn zeta.
  pose proof (summary_lifecycle uid xs fs) as H. cbn zeta in H.
  rewrite Hzero in H.
  destruct (H ltac:(lia) (fun _ => Hnone) ltac:(lia)) as (Hlow & Hhigh).
  split; intros Hlen; [apply Hlow | apply Hhigh]; lia.
Qed.

Lemma summary_appears_with_fifth_entry_witness :
  is_Some (memory (fst (createAll RevC.updateMemoryOnNewReceipt "u"
                          (map healthyCreation fiveNotes) newcomer)) !! "u").
Proof.
  apply (proj2 (summary_appears_with_fifth_entry "u" fiveNotes newcomer
                  eq_refl eq_refl)).
  cbn. lia.
Defined.

(** ** The two revisions of the trigger on the early exit *)

(** Where revision B works it does what revision C does: for a user whose
    record exists and whose new count is no multiple of 5, the two
    revisions return the same result and leave the same store, whatever
    the store and the backend do. *)
Theorem revisions_agree_on_early_exit (env : Env) (fs : Firestore) (uid : string) :
  is_Some (users fs !! uid) ->
  Z.rem (currentCount fs uid + 1) 5 <> 0 ->
  result (RevB.updateMemoryOnNewReceipt env fs uid)
  = result (RevC.updateMemoryOnNewReceipt env fs uid) /\
  store (RevB.updateMemoryOnNewReceipt env fs uid)
  = store (RevC.updateMemoryOnNewReceipt env fs uid).
Proof.
  intros [doc Hdoc] Hrem. rewrite revB_trigger_run, revC_trigger_run.
  unfold aborted, otherFields. cbn zeta.
  unfold currentCount in *. rewrite Hdoc in *.
  destruct (fault env (OpGet (UserRef uid))); [now split|].
  apply Z.eqb_neq in Hrem. rewrite Hrem. cbn [negb].
  destruct (fault env OpCommit); now split.
Qed.

Lemma revisions_agree_on_early_exit_witness :
  store (RevB.updateMemoryOnNewReceipt (healthy (fun _ => "A summary.") 101) newcomer "u")
  = store (RevC.updateMemoryOnNewReceipt (healthy (fun _ => "A summary.") 101) newcomer "u").
Proof.
  apply (revisions_agree_on_early_exit (healthy (fun _ => "A summary.") 101) newcomer "u").
  - eexists. reflexivity.
  - discriminate.
Defined.

(** ** A created entry that is deleted *)

(** The counter counts creations, not entries: when an entry is created
    under a fresh id, the trigger commits, and the entry is deleted again,
    the caller's entries are what they were before, and [receiptCount] is
    one more. *)
Theorem deleted_entry_still_counts (g : string -> string) (now : Z) (fs : Firestore)
    (uid rid : string) (r : Receipt) :
  rid <> EmptyString ->
  collection fs uid !! rid = None ->
  let o := onCreate RevC.updateMemoryOnNewReceipt uid
             (healthyCreation (rid, r, g, now)) fs in
  let out := deleteReceipt accepting (store o) (mkDeleteData (Some rid))
               (mkContext (Some uid)) in
  fst out = inr (mkReply "success" "Receipt deleted.") /\
  collection (snd out) uid = collection fs uid /\
  currentCount (snd out) uid = currentCount fs uid + 1.
Proof.
  intros Hrid Hfresh. cbn zeta. unfold onCreate.
  cbn [healthyCreation creationEnv receiptId entry].
  set (fs1 := addReceipt uid rid r fs).
  destruct (revC_healthy_invocation g now fs1 uid) as (Hcount & _ & _).
  pose proof (trigger_frame_receipts (healthy g now) fs1 uid) as Hrec.
  set (o := RevC.updateMemoryOnNewReceipt (healthy g now) fs1 uid) in *.
  unfold deleteReceipt, accepting. cbn [auth deleteId].
  destruct rid as [|ch rid]; [congruence|]. unfold rendered. cbn [missing Js.truthy negb].
  cbn [default from_option id fst snd]. repeat split.
  - rewrite collection_deleteDoc, decide_True by reflexivity.
    unfold collection at 1. rewrite Hrec.
    change (default ∅ (receipts fs1 !! uid)) with (collection fs1 uid).
    unfold fs1, collection at 1, addReceipt. cbn [receipts].
    rewrite lookup_insert_eq. cbn. now apply delete_insert_id.
  - change (currentCount (deleteDoc uid (String ch rid) (store o)) uid)
      with (currentCount (store o) uid).
    exact Hcount.
Qed.

Lemma deleted_entry_still_counts_witness :
  let o := onCreate RevC.updateMemoryOnNewReceipt "u"
             (healthyCreation ("r3", mkReceipt "note 3" 30, fun _ => "A summary.", 103))
             diary in
  let out := deleteReceipt accepting (store o) (mkDeleteData (Some "r3"))
               (mkContext (Some "u")) in
  fst out = inr (mkReply "success" "Receipt deleted.") /\
  collection (snd out) "u" = collection diary "u" /\
  currentCount (snd out) "u" = currentCount diary "u" + 1.
Proof.
  apply (deleted_entry_still_counts (fun _ => "A summary.") 103 diary "u" "r3"
           (mkReceipt "note 3" 30)); [discriminate | reflexivity].
Defined.

(** ** Placeholders for a context that is missing *)

Lemma join_lines_truthy (r : Receipt) (rs : list Receipt) :
  Js.truthy (Js.join Js.nl (map entryLine (r :: rs))) = true.
Proof.
  unfold Js.join. cbn [map]. destruct (map entryLine rs); reflexivity.
Qed.

Lemma queryRecent_nil (fs : Firestore) (uid : string) (n : nat) :
  queryRecent fs uid (S n) = [] <-> collection fs uid = ∅.
Proof.
  unfold queryRecent. split.
  - intros H. apply take_nil_inv in H as [H | H]; [discriminate|].
    apply map_to_list_empty_iff, Permutation_nil.
    rewrite <- H. apply merge_sort_Permutation.
  - intros ->. now rewrite map_to_list_empty.
Qed.

Lemma contextLines_nil (snapshot : list (string * Receipt)) :
  snapshot <> [] ->
  exists r rs, map entryLine (rev (map snd snapshot)) = map entryLine (r :: rs).
Proof.
  intros Hne. destruct (rev (map snd snapshot)) as [|r rs] eqn:E.
  - apply (f_equal (@length _)) in E. rewrite length_rev, length_map in E.
    destruct snapshot; [congruence | discriminate].
  - now exists r, rs.
Qed.

(** What the prompts show when a part of the context is missing.  The
    enhancement writes "No recent entries." exactly when the caller has no
    entry, and otherwise the lines of the entries.  The curator writes "No
    summary yet." when there is no summary document and also when the
    stored summary is the empty text, and otherwise the stored summary.
    The enhancement of revision C has its placeholder only for a missing
    document: a stored summary is shown as it is, the empty one too. *)
Theorem placeholders_for_missing_context (fs : Firestore) (uid : string) :
  (collection fs uid = ∅ ->
   Js.or_else (RevA.contextText (queryRecent fs uid 3)) "No recent entries."
   = "No recent entries." /\
   Js.or_else (RevC.contextHistory (queryRecent fs uid 3)) "No recent entries."
   = "No recent entries.") /\
  (collection fs uid <> ∅ ->
   Js.or_else (RevA.contextText (queryRecent fs uid 3)) "No recent entries."
   = Js.join Js.nl (chronologicalLines (queryRecent fs uid 3)) /\
   Js.or_else (RevC.contextHistory (queryRecent fs uid 3)) "No recent entries."
   = Js.join Js.nl (chronologicalLines (queryRecent fs uid 3)) /\
   queryRecent fs uid 3 <> []) /\
  (memory fs !! uid = None \/
   (exists d, memory fs !! uid = Some d /\ summary d = EmptyString) ->
   Js.or_else (currentMemory fs uid) "No summary yet." = "No summary yet.") /\
  (forall d, memory fs !! uid = Some d ->
     (summary d <> EmptyString ->
      Js.or_else (currentMemory fs uid) "No summary yet." = summary d) /\
     memoryText fs uid = summary d).
Proof.
  split; [|split; [|split]].
  - intros Hempty. apply (queryRecent_nil fs uid 2) in Hempty.
    rewrite Hempty. split; reflexivity.
  - intros Hne.
    assert (Hq : queryRecent fs uid 3 <> [])
      by (intros H; apply Hne; now apply (queryRecent_nil fs uid 2)).
    destruct (contextLines_chronological (queryRecent fs uid 3)) as (HA & _ & HC).
    unfold RevA.contextText, RevC.contextHistory. rewrite HA, HC.
    destruct (contextLines_nil _ Hq) as (r & rs & Hlines).
    assert (Ht : Js.truthy (Js.join Js.nl (chronologicalLines (queryRecent fs uid 3)))
                 = true).
    { unfold chronologicalLines. rewrite <- map_map, map_rev, Hlines.
      apply join_lines_truthy. }
    unfold Js.or_else. rewrite Ht. now repeat split.
  - unfold currentMemory. intros [-> | (d & -> & ->)]; reflexivity.
  - intros d Hd. unfold currentMemory, memoryText. rewrite Hd. split; [|reflexivity].
    intros Hne. destruct (summary d); [congruence | reflexivity].
Qed.

(** The entries of [diary] are there, so its prompt has their lines and no
    placeholder. *)
Lemma placeholders_for_missing_context_witness :
  Js.or_else (RevC.contextHistory (queryRecent diary "u" 3)) "No recent entries."
  = Js.join Js.nl (chronologicalLines (queryRecent diary "u" 3)).
Proof.
  apply (proj1 (proj2 (placeholders_for_missing_context diary "u"))).
  intros H. apply (f_equal (fun c => c !! "r1")) in H. discriminate H.
Defined.

(** ** Whose documents a run depends on *)

Lemma sameFor_queryRecent (uid : string) (fs1 fs2 : Firestore) (n : nat) :
  sameFor uid fs1 fs2 -> queryRecent fs1 uid n = queryRecent fs2 uid n.
Proof. intros (_ & _ & Hc). unfold queryRecent. now rewrite Hc. Qed.

(** A run for a user depends on that user's documents alone.  On two
    stores that hold the same record, summary and entries for the caller
    and differ in anything else, the enhancement sends the same prompt,
    logs the same and returns the same, and the trigger returns the same
    result with the same trace: no other user's text reaches a prompt. *)
Theorem runs_depend_on_own_documents (env : Env) (fs1 fs2 : Firestore) (uid : string) :
  sameFor uid fs1 fs2 ->
  (forall data,
     runCallable (RevA.getEnhancedReceipt env fs1 data (mkContext (Some uid)))
     = runCallable (RevA.getEnhancedReceipt env fs2 data (mkContext (Some uid)))) /\
  (forall data,
     runCallable (RevC.getEnhancedReceipt env fs1 data (mkContext (Some uid)))
     = runCallable (RevC.getEnhancedReceipt env fs2 data (mkContext (Some uid)))) /\
  result (RevC.updateMemoryOnNewReceipt env fs1 uid)
  = result (RevC.updateMemoryOnNewReceipt env fs2 uid) /\
  events (RevC.updateMemoryOnNewReceipt env fs1 uid)
  = events (RevC.updateMemoryOnNewReceipt env fs2 uid).
Proof.
  intros Hsame. pose proof Hsame as (Hu & Hm & Hc).
  assert (HpA : forall t, promptA fs1 uid t = promptA fs2 uid t).
  { intros t. unfold promptA. now rewrite (sameFor_queryRecent uid fs1 fs2 3 Hsame). }
  assert (HpC : forall t, promptC fs1 uid t = promptC fs2 uid t).
  { intros t. unfold promptC, memoryText.
    now rewrite (sameFor_queryRecent uid fs1 fs2 3 Hsame), Hm. }
  assert (Hcur : curatorPromptC fs1 uid = curatorPromptC fs2 uid).
  { unfold curatorPromptC, currentMemory.
    now rewrite (sameFor_queryRecent uid fs1 fs2 15 Hsame), Hm. }
  assert (Hcount : currentCount fs1 uid = currentCount fs2 uid).
  { unfold currentCount. now rewrite Hu. }
  split; [|split].
  - intros data. destruct (missing (text data)) eqn:Htext.
    + unfold runCallable, RevA.getEnhancedReceipt. cbn [auth]. now rewrite Htext.
    + now rewrite !revA_enhance_run, HpA by assumption.
  - intros data. destruct (missing (text data)) eqn:Htext.
    + unfold runCallable, RevC.getEnhancedReceipt. cbn [auth]. now rewrite Htext.
    + now rewrite !revC_enhance_run, HpC by assumption.
  - rewrite !revC_trigger_run, Hcur, Hcount. unfold aborted.
    destruct (fault env (OpGet (UserRef uid))); [now split|].
    destruct (negb _).
    { destruct (fault env OpCommit); now split. }
    destruct (fault env (OpQuery uid)); [now split|].
    destruct (fault env (OpGet (MemoryRef uid))); [now split|].
    destruct (generate env _); [now split|].
    destruct (fault env OpCommit); now split.
Qed.

Lemma runs_depend_on_own_documents_witness :
  runCallable (RevC.getEnhancedReceipt (healthy (fun _ => "A polished entry.") 0)
                 neighbours (mkCallData (Some "went for a run")) (mkContext (Some "u")))
  = runCallable (RevC.getEnhancedReceipt (healthy (fun _ => "A polished entry.") 0)
                   (deleteDoc "v" "r1" neighbours)
                   (mkCallData (Some "went for a run")) (mkContext (Some "u"))).
Proof.
  apply (runs_depend_on_own_documents (healthy (fun _ => "A polished entry.") 0)
           neighbours (deleteDoc "v" "r1" neighbours) "u").
  repeat split.
Defined.

(** ** What a call costs and what it logs *)




(** A failure behind the enhancement is logged with its cause and kept
    from the caller.  When an accepted call of revision A or C fails, the
    last thing it did was to log the exception that the store or the
    backend raised, with the detail they gave; the caller gets the fixed
    [internal] error, which carries none of it. *)
Theorem failure_detail_is_logged_not_returned (env : Env) (fs : Firestore)
    (data : CallData) (uid : string) :
  missing (text data) = false ->
  let isCause := fun cause =>
    (exists op d, fault env op = Some d /\ cause = StoreError d) \/
    (exists p d, generate env p = inl d /\ cause = ProviderError d) in
  (forall e,
     fst (runCallable (RevA.getEnhancedReceipt env fs data (mkContext (Some uid)))) = inl e ->
     e = HttpsError internal "Failed to get a response from the AI Scribe." /\
     exists cause,
       last (snd (runCallable (RevA.getEnhancedReceipt env fs data (mkContext (Some uid)))))
       = Some (LogError "Error calling Gemini API:" cause) /\ isCause cause) /\
  (forall e,
     fst (runCallable (RevC.getEnhancedReceipt env fs data (mkContext (Some uid)))) = inl e ->
     e = HttpsError internal "AI Scribe failed." /\
     exists cause,
       last (snd (runCallable (RevC.getEnhancedReceipt env fs data (mkContext (Some uid)))))
       = Some (LogError "CRITICAL: Gemini API Error in Scribe:" cause) /\ isCause cause).
Proof.
  intros Htext. cbn beta zeta. split; intros e.
  - rewrite (revA_enhance_run env fs data uid Htext).
    destruct (fault env (OpQuery uid)) as [d|] eqn:Hq.
    { intros [= <-]. split; [reflexivity|]. eexists. split; [reflexivity|].
      left. eauto. }
    destruct (generate env _) as [d|t] eqn:Hg; [|discriminate].
    intros [= <-]. split; [reflexivity|]. eexists. split; [reflexivity|].
    right. eauto.
  - rewrite (revC_enhance_run env fs data uid Htext).
    destruct (fault env (OpGet (MemoryRef uid))) as [d|] eqn:Hm.
    { intros [= <-]. split; [reflexivity|]. eexists. split; [reflexivity|].
      left. eauto. }
    destruct (fault env (OpQuery uid)) as [d|] eqn:Hq.
    { intros [= <-]. split; [reflexivity|]. eexists. split; [reflexivity|].
      left. eauto. }
    destruct (generate env _) as [d|t] eqn:Hg; [|discriminate].
    intros [= <-]. split; [reflexivity|]. eexists. split; [reflexivity|].
    right. eauto.
Qed.

Lemma failure_detail_is_logged_not_returned_witness :
  HttpsError internal "AI Scribe failed." = HttpsError internal "AI Scribe failed." /\
  exists cause,
    last (snd (runCallable (RevC.getEnhancedReceipt (backendDown 0) diary
                              (mkCallData (Some "went for a run")) (mkContext (Some "u")))))
    = Some (LogError "CRITICAL: Gemini API Error in Scribe:" cause) /\
    ((exists op d, fault (backendDown 0) op = Some d /\ cause = StoreError d) \/
     (exists p d, generate (backendDown 0) p = inl d /\ cause = ProviderError d)).
Proof.
  exact (proj2 (failure_detail_is_logged_not_returned (backendDown 0) diary
                  (mkCallData (Some "went for a run")) "u" eq_refl)
           (HttpsError internal "AI Scribe failed.") eq_refl).
Defined.

(** ** What a prompt carries *)

Lemma embeds_trans (a b c : string) : Js.embeds a b -> Js.embeds b c -> Js.embeds a c.
Proof.
  intros (p1 & q1 & ->) (p2 & q2 & ->).
  exists (p2 +:+ p1), (q1 +:+ q2). now rewrite !append_assoc.
Qed.

Lemma line_in_chronologicalLines (snapshot : list (string * Receipt)) (i : string)
    (r : Receipt) :
  In (i, r) snapshot -> In (entryLine r) (chronologicalLines snapshot).
Proof.
  intros Hin. unfold chronologicalLines.
  apply (in_map (fun d => entryLine (snd d)) _ (i, r)). now apply -> in_rev.
Qed.

(** Every prompt carries its whole context.  A prompt that the enhancement
    of revision A or C sends contains the line of each of the entries the
    store returned, up to 3, and the caller's note between quotes; a
    prompt that the trigger of revision C sends contains the line of each
    of the entries the store returned, up to 15, and the stored summary,
    or "No summary yet." in its place. *)
Theorem prompts_carry_their_context (env : Env) (fs : Firestore) (uid p : string) :
  (forall data,
     In (Generate p)
        (snd (runCallable (RevA.getEnhancedReceipt env fs data (mkContext (Some uid)))))
     \/
     In (Generate p)
        (snd (runCallable (RevC.getEnhancedReceipt env fs data (mkContext (Some uid))))) ->
     (forall i r, In (i, r) (queryRecent fs uid 3) -> Js.embeds (entryLine r) p) /\
     Js.embeds ("NEW NOTE: " +:+ Js.dquote +:+ rendered (text data) +:+ Js.dquote) p) /\
  (In (Generate p) (events (RevC.updateMemoryOnNewReceipt env fs uid)) ->
   (forall i r, In (i, r) (queryRecent fs uid 15) -> Js.embeds (entryLine r) p) /\
   Js.embeds (Js.or_else (currentMemory fs uid) "No summary yet.") p).
Proof.
  split.
  - intros data Hsent.
    assert (Hlines : forall i r, In (i, r) (queryRecent fs uid 3) ->
              Js.truthy (Js.join Js.nl (chronologicalLines (queryRecent fs uid 3))) = true /\
              Js.embeds (entryLine r)
                (Js.join Js.nl (chronologicalLines (queryRecent fs uid 3)))).
    { intros i r Hin. split.
      - destruct (contextLines_nil (queryRecent fs uid 3)) as (r0 & rs & Hl).
        { intros E. now rewrite E in Hin. }
        unfold chronologicalLines. rewrite <- map_map, map_rev, Hl.
        apply join_lines_truthy.
      - apply embeds_join. eapply line_in_chronologicalLines, Hin. }
    destruct (contextLines_chronological (queryRecent fs uid 3)) as (HA & _ & HC).
    destruct Hsent as [Hin | Hin].
    + apply revA_prompt_sent in Hin. subst p. unfold promptA, RevA.prompt, RevA.contextText.
      rewrite HA. split.
      * intros i r Hr. destruct (Hlines i r Hr) as (Ht & He).
        eapply embeds_trans; [exact He|]. apply embeds_join.
        unfold Js.or_else. rewrite Ht. cbn. tauto.
      * apply embeds_join. cbn. tauto.
    + apply revC_prompt_sent in Hin. subst p. unfold promptC, RevC.prompt, RevC.contextHistory.
      rewrite HC. split.
      * intros i r Hr. destruct (Hlines i r Hr) as (Ht & He).
        eapply embeds_trans; [exact He|]. apply embeds_join.
        unfold Js.or_else. rewrite Ht. cbn. tauto.
      * apply embeds_join. cbn. tauto.
  - intros Hin. apply revC_curator_prompt_sent in Hin. subst p.
    unfold curatorPromptC, RevC.curatorPrompt, RevC.recentHistory.
    rewrite (proj2 (historyLines_chronological _)). split.
    + intros i r Hr. eapply embeds_trans.
      * apply embeds_join. eapply line_in_chronologicalLines, Hr.
      * apply embeds_join. cbn. tauto.
    + apply embeds_join. cbn. tauto.
Qed.

Lemma prompts_carry_their_context_witness :
  Js.embeds "- first 5k" (promptC diary "u" (Some "went for a run")).
Proof.
  apply (proj1 (proj1 (prompts_carry_their_context
                         (healthy (fun _ => "A polished entry.") 0) diary "u"
                         (promptC diary "u" (Some "went for a run")))
                  (mkCallData (Some "went for a run"))
                  (or_intror (or_intror (or_intror (or_introl eq_refl)))))
           "r2" (mkReceipt "first 5k" 20)).
  left. reflexivity.
Defined.
